(** * ARQV30 Enhanced: the browser controller of src/static/js/main.js

    A shallow embedding of class [ARQV30App] and of the part of the
    JavaScript runtime its methods rely on, followed by the properties
    of the client contract.

    Conventions of the embedding.
    - A JavaScript string is a [string] holding its UTF-8 bytes.
    - A finite Number is kept as an exact decimal [m * 10^e]; rounding to
      binary64 is not modelled, and [-0] is identified with [0].
    - An object is the list of its own properties in enumeration order.
    - A method that touches the state of the controller, the page or the
      network is a computation in the monad [M]: it threads the state,
      may throw, and emits the calls it makes to the browser as events.
    - What the environment decides (the clock, the random generator, the
      answer of the server) is an argument of the method. *)

From Stdlib Require Import String Ascii List Bool ZArith NArith Lia.
From Stdlib Require Import DecimalString DecimalPos DecimalN QArith Qround.
Import ListNotations.

Set Warnings "-register-all".
Close Scope Q_scope.
Open Scope list_scope.
Open Scope string_scope.

(** The double quote, which a template of the source uses freely. *)
Definition dq : string := String (ascii_of_nat 34) EmptyString.

(* ================================================================= *)
(** ** The JavaScript runtime *)

Module JS.

(** *** Numbers *)

Inductive number : Type :=
| NaN
| Infinity (neg : bool)
| Dec (m : Z) (e : Z).          (* the value m * 10^e *)

Definition of_N (n : N) : number := Dec (Z.of_N n) 0.

(** Decimal digits of a natural number, [0] giving ["0"]. *)
Definition digits (n : N) : string :=
  NilZero.string_of_uint (N.to_uint n).

Definition is_digit (c : ascii) : bool :=
  (48 <=? nat_of_ascii c)%nat && (nat_of_ascii c <=? 57)%nat.

Definition digit_value (c : ascii) : Z := Z.of_nat (nat_of_ascii c) - 48.

Definition digits_value (ds : list ascii) : Z :=
  fold_left (fun acc c => 10 * acc + digit_value c)%Z ds 0%Z.

Fixpoint span_digits (l : list ascii) : list ascii * list ascii :=
  match l with
  | c :: l' =>
      if is_digit c
      then let (ds, rest) := span_digits l' in (c :: ds, rest)
      else ([], l)
  | [] => ([], [])
  end.

Fixpoint drop_zeros (l : list ascii) : list ascii * nat :=
  match l with
  | c :: l' =>
      if Ascii.eqb c "0"
      then let (r, n) := drop_zeros l' in (r, S n)
      else (l, O)
  | [] => ([], O)
  end.

Fixpoint zeros (n : nat) : list ascii :=
  match n with O => [] | S n' => "0"%char :: zeros n' end.

(** Number::toString of a positive finite value [m * 10^e] (ECMA-262,
    radix 10): [k] significant digits, decimal point after the [n]-th. *)
Definition positiveToString (m : N) (e : Z) : string :=
  let (rds, z) := drop_zeros (rev (list_ascii_of_string (digits m))) in
  let ds := rev rds in
  let k := Z.of_nat (length ds) in
  let n := (k + e + Z.of_nat z)%Z in
  if ((k <=? n) && (n <=? 21))%Z then
    string_of_list_ascii (ds ++ zeros (Z.to_nat (n - k)))
  else if ((0 <? n) && (n <=? 21))%Z then
    string_of_list_ascii
      (firstn (Z.to_nat n) ds ++ "."%char :: skipn (Z.to_nat n) ds)
  else if ((-6 <? n) && (n <=? 0))%Z then
    string_of_list_ascii
      ("0"%char :: "."%char :: zeros (Z.to_nat (- n)) ++ ds)
  else
    let x := (n - 1)%Z in
    let sign := if (x <? 0)%Z then "-" else "+" in
    let mant :=
      match ds with
      | d :: (_ :: _) as tl => string_of_list_ascii (d :: "."%char :: tl)
      | _ => string_of_list_ascii ds
      end in
    mant ++ "e" ++ sign ++ digits (Z.abs_N x).

Definition numberToString (x : number) : string :=
  match x with
  | NaN => "NaN"
  | Infinity false => "Infinity"
  | Infinity true => "-Infinity"
  | Dec Z0 _ => "0"
  | Dec (Zpos p) e => positiveToString (Npos p) e
  | Dec (Zneg p) e => "-" ++ positiveToString (Npos p) e
  end.

(** Equality of two Numbers as [===] sees it. *)
Definition number_eqb (x y : number) : bool :=
  match x, y with
  | Infinity a, Infinity b => Bool.eqb a b
  | Dec m e, Dec m' e' =>
      let lo := Z.min e e' in
      (m * 10 ^ (e - lo) =? m' * 10 ^ (e' - lo))%Z
  | _, _ => false
  end.

(** *** parseFloat *)

(** StrWhiteSpaceChar, read on the UTF-8 bytes of the string. *)
Definition ascii_space (c : ascii) : bool :=
  let n := nat_of_ascii c in
  ((9 <=? n) && (n <=? 13) || (n =? 32))%nat.

Definition byte_is (c : ascii) (n : nat) : bool := (nat_of_ascii c =? n)%nat.

Definition space3 (a b c : ascii) : bool :=
  let z := nat_of_ascii c in
  byte_is a 225 && byte_is b 154 && byte_is c 128           (* U+1680 *)
  || byte_is a 226 && byte_is b 128
     && ((128 <=? z) && (z <=? 138) || (z =? 168) || (z =? 169) || (z =? 175))%nat
                                    (* U+2000..200A, 2028, 2029, 202F *)
  || byte_is a 226 && byte_is b 129 && byte_is c 159        (* U+205F *)
  || byte_is a 227 && byte_is b 128 && byte_is c 128        (* U+3000 *)
  || byte_is a 239 && byte_is b 187 && byte_is c 191.       (* U+FEFF *)

Fixpoint trimStart (l : list ascii) : list ascii :=
  match l with
  | a :: l1 =>
      if ascii_space a then trimStart l1
      else
        match l1 with
        | b :: l2 =>
            if byte_is a 194 && byte_is b 160 then trimStart l2  (* U+00A0 *)
            else
              match l2 with
              | c :: l3 => if space3 a b c then trimStart l3 else l
              | [] => l
              end
        | [] => l
        end
  | [] => []
  end.

Fixpoint starts_with (p l : list ascii) : bool :=
  match p, l with
  | [], _ => true
  | a :: p', b :: l' => Ascii.eqb a b && starts_with p' l'
  | _ :: _, [] => false
  end.

Definition take_sign (l : list ascii) : bool * list ascii :=
  match l with
  | c :: r =>
      if Ascii.eqb c "-" then (true, r)
      else if Ascii.eqb c "+" then (false, r)
      else (false, l)
  | [] => (false, l)
  end.

Definition signed (neg : bool) (z : Z) : Z := if neg then (- z)%Z else z.

(** The exponent part, when the text has a complete one. *)
Definition exponent (l : list ascii) : Z :=
  match l with
  | c :: r =>
      if Ascii.eqb c "e" || Ascii.eqb c "E" then
        let (neg, r1) := take_sign r in
        match fst (span_digits r1) with
        | [] => 0%Z
        | ed => signed neg (digits_value ed)
        end
      else 0%Z
  | [] => 0%Z
  end.

(** [parseFloat(s)] for a string [s]: the longest prefix of the trimmed
    text that is a StrDecimalLiteral, or NaN when there is none.  The
    result is the exact decimal the prefix writes: where the source
    rounds it to binary64 (a text of more than 53 bits of mantissa),
    overflows to Infinity (1e400) or underflows to 0, the model keeps the
    decimal.  Whether the result is NaN does not depend on that, and an
    integer below 2^53 written in digits is read exactly. *)
Definition parseFloat (s : string) : number :=
  let (neg, l1) := take_sign (trimStart (list_ascii_of_string s)) in
  if starts_with (list_ascii_of_string "Infinity") l1 then Infinity neg
  else
    let (ip, l2) := span_digits l1 in
    let (fp, l3) :=
      match l2 with
      | c :: r => if Ascii.eqb c "." then span_digits r else ([], l2)
      | [] => ([], l2)
      end in
    match (ip ++ fp)%list with
    | [] => NaN
    | ds => Dec (signed neg (digits_value ds))
                (exponent l3 - Z.of_nat (length fp))
    end.

(** *** Values *)

Inductive prim : Type :=
| PUndefined
| PNull
| PBool (b : bool)
| PNum (n : number)
| PStr (s : string).

(** A value is a primitive, an array or an object; a parsed JSON document
    is a value without [PUndefined], [NaN] and [Infinity]. *)
Inductive value : Type :=
| Prim (p : prim)
| Arr (items : list value)
| Obj (props : list (string * value)).

Definition undefined : value := Prim PUndefined.
Definition null : value := Prim PNull.

(** ToBoolean. *)
Definition truthy_prim (p : prim) : bool :=
  match p with
  | PUndefined | PNull => false
  | PBool b => b
  | PNum NaN => false
  | PNum (Dec Z0 _) => false
  | PNum _ => true
  | PStr s => negb (String.eqb s "")
  end.

Definition truthy (v : value) : bool :=
  match v with
  | Prim p => truthy_prim p
  | Arr _ | Obj _ => true
  end.

(** [a || b] on primitives. *)
Definition or_else (a b : prim) : prim := if truthy_prim a then a else b.

(** [a === b] on primitives. *)
Definition strict_equals (a b : prim) : bool :=
  match a, b with
  | PUndefined, PUndefined => true
  | PNull, PNull => true
  | PBool x, PBool y => Bool.eqb x y
  | PNum x, PNum y => number_eqb x y
  | PStr x, PStr y => String.eqb x y
  | _, _ => false
  end.

Fixpoint join (sep : string) (l : list string) : string :=
  match l with
  | [] => ""
  | [x] => x
  | x :: l' => x ++ sep ++ join sep l'
  end.

(** ToString, as a template literal or [+] with a string applies it. *)
Definition primToString (p : prim) : string :=
  match p with
  | PUndefined => "undefined"
  | PNull => "null"
  | PBool true => "true"
  | PBool false => "false"
  | PNum n => numberToString n
  | PStr s => s
  end.

Fixpoint toString (v : value) : string :=
  match v with
  | Prim p => primToString p
  | Arr items =>
      join ","
        (map (fun x =>
                match x with
                | Prim PUndefined | Prim PNull => ""
                | _ => toString x
                end) items)
  | Obj _ => "[object Object]"
  end.

(** [o[key]] on an object given by its property list. *)
Fixpoint lookup {A : Type} (o : list (string * A)) (key : string) : option A :=
  match o with
  | [] => None
  | (k, v) :: o' => if String.eqb k key then Some v else lookup o' key
  end.

(** [delete o[key]]. *)
Definition delete {A : Type} (o : list (string * A)) (key : string)
  : list (string * A) :=
  filter (fun kv => negb (String.eqb (fst kv) key)) o.

Definition keys {A : Type} (o : list (string * A)) : list string :=
  map fst o.

(** *** JSON.stringify *)

Definition hex_digit (n : nat) : ascii :=
  if (n <? 10)%nat then ascii_of_nat (48 + n) else ascii_of_nat (87 + n).

Definition quote_char (c : ascii) : string :=
  let n := nat_of_ascii c in
  let bs := String (ascii_of_nat 92) EmptyString in
  if (n =? 8)%nat then bs ++ "b"
  else if (n =? 9)%nat then bs ++ "t"
  else if (n =? 10)%nat then bs ++ "n"
  else if (n =? 12)%nat then bs ++ "f"
  else if (n =? 13)%nat then bs ++ "r"
  else if (n =? 34)%nat then bs ++ dq
  else if (n =? 92)%nat then bs ++ bs
  else if (n <? 32)%nat then
    bs ++ "u00" ++ String (hex_digit (n / 16)) (String (hex_digit (n mod 16)) "")
  else String c "".

(** QuoteJSONString. *)
Fixpoint quote_body (s : string) : string :=
  match s with
  | EmptyString => ""
  | String c s' => quote_char c ++ quote_body s'
  end.

Definition quote (s : string) : string := dq ++ quote_body s ++ dq.

Definition stringify_prim (p : prim) : option string :=
  match p with
  | PUndefined => None
  | PNull => Some "null"
  | PBool true => Some "true"
  | PBool false => Some "false"
  | PNum (Dec m e) => Some (numberToString (Dec m e))
  | PNum _ => Some "null"
  | PStr s => Some (quote s)
  end.

(** SerializeJSONProperty without indentation: [None] stands for
    [undefined], which drops a property and reads [null] in an array. *)
Fixpoint stringify (v : value) : option string :=
  match v with
  | Prim p => stringify_prim p
  | Arr items =>
      Some ("[" ++ join ","
                    (map (fun x =>
                            match stringify x with
                            | Some t => t
                            | None => "null"
                            end) items) ++ "]")%string
  | Obj props =>
      Some ("{" ++ join ","
                    ((fix members (l : list (string * value)) : list string :=
                        match l with
                        | [] => []
                        | (k, x) :: l' =>
                            match stringify x with
                            | Some t => (quote k ++ ":" ++ t)%string :: members l'
                            | None => members l'
                            end
                        end) props) ++ "}")%string
  end.

(** An object whose properties hold primitives, as a value. *)
Definition object_of (o : list (string * prim)) : value :=
  Obj (map (fun kv => (fst kv, Prim (snd kv))) o).

(** *** Exceptions *)

(** [v[key]] on any value: reading a property of [undefined] or [null]
    throws a TypeError (the message is V8's); the names read by the
    controller are no property of a string, an array or a prototype. *)
Definition get (v : value) (key : string) : string + value :=
  match v with
  | Prim PUndefined =>
      inl ("Cannot read properties of undefined (reading '" ++ key ++ "')")
  | Prim PNull =>
      inl ("Cannot read properties of null (reading '" ++ key ++ "')")
  | Prim _ | Arr _ => inr undefined
  | Obj props =>
      match lookup props key with
      | Some x => inr x
      | None => inr undefined
      end
  end.

End JS.

(* ================================================================= *)
(** ** The controller: state, page, network *)

Import JS.

(** In a template of the source copied below, [~] stands for the double
    quote; [html] puts the quotes back. *)
Fixpoint html (s : string) : string :=
  match s with
  | EmptyString => ""
  | String c s' => (if Ascii.eqb c "~" then dq else String c "") ++ html s'
  end.

(** A [File] picked by the user. *)
Module File.
Record t : Type := { name : string; size : N }.
End File.

(** A descriptor of the upload list. *)
Record UploadedFile : Type := {
  name : string;
  size : N;
  type : value;
  id : prim
}.

(** The fields of [this]. *)
Record ARQV30App : Type := {
  sessionId : string;
  uploadedFiles : list UploadedFile;
  currentAnalysis : value
}.

(** The elements of the page the modelled methods reach: [None] (or
    [false]) when [getElementById] finds nothing. *)
Record Page : Type := {
  analysisForm : bool;
  uploadedFilesContainer : option string;      (* innerHTML of #uploadedFiles *)
  resultsSection : option string;              (* style.display of #resultsSection *)
  resultsContent : bool
}.

Record World : Type := { this : ARQV30App; page : Page }.

Inductive FormEntry : Type :=
| FileEntry (file : File.t)
| StringEntry (s : string).

Inductive Body : Type :=
| TextBody (text : option string)
| FormDataBody (entries : list (string * FormEntry)).

Record RequestInit : Type := {
  method : string;
  headers : list (string * string);
  body : Body
}.

(** The calls a method makes to the browser, and to the methods of the
    class that only draw: [showLoading], [hideLoading], [showNotification]
    (through [showError] and [showSuccess]) and the rendering done by
    [displayResults]. *)
Inductive Event : Type :=
| PreventDefault
| Fetch (url : string) (init : RequestInit)
| ShowLoading
| HideLoading
| RenderResults (result : value)
| ShowNotification (message : string) (kind : string)
| ConsoleError (label : string) (message : string)
| FormReset
| ScrollToTop
| SaveFile (filename : string).

(** What a [fetch] comes back with: the promise rejects with an error of
    that message, or it gives a response with its [ok] flag and its body;
    reading the body ([response.json()], [response.blob()]) rejects with
    a message or gives the payload. *)
Inductive Answer (A : Type) : Type :=
| Rejected (message : string)
| Responded (ok : bool) (payload : string + A).
Arguments Rejected {A} message.
Arguments Responded {A} ok payload.

(** The body of an answer of /api/upload_attachment, read at the four
    names [uploadFile] reads: a name the body does not have reads
    [undefined].  The attachment id is a primitive (a string or a number
    in the backend's answers); an id that is an object, which [===] would
    compare by reference, is outside the type. *)
Record UploadResult : Type := {
  success : value;
  content_type : value;
  attachment_id : prim;
  error : value
}.

(** *** The monad of methods *)

Inductive completion (A : Type) : Type :=
| Normal (a : A)
| Throw (message : string).
Arguments Normal {A} a.
Arguments Throw {A} message.

Definition M (A : Type) : Type := World -> completion A * World * list Event.

Definition ret {A} (a : A) : M A := fun w => (Normal a, w, []).

Definition bind {A B} (m : M A) (k : A -> M B) : M B :=
  fun w =>
    match m w with
    | (Normal a, w1, es1) =>
        match k a w1 with (r, w2, es2) => (r, w2, (es1 ++ es2)%list) end
    | (Throw msg, w1, es1) => (Throw msg, w1, es1)
    end.

Definition throw {A} (message : string) : M A := fun w => (Throw message, w, []).

Definition try_catch (m : M unit) (handler : string -> M unit) : M unit :=
  fun w =>
    match m w with
    | (Normal a, w1, es1) => (Normal a, w1, es1)
    | (Throw msg, w1, es1) =>
        match handler msg w1 with (r, w2, es2) => (r, w2, (es1 ++ es2)%list) end
    end.

Notation "x <- m ;; k" := (bind m (fun x => k))
  (at level 61, m at next level, right associativity).
Notation "m ;; k" := (bind m (fun _ => k))
  (at level 61, right associativity).

Definition emit (e : Event) : M unit := fun w => (Normal tt, w, [e]).
Definition get_this : M ARQV30App := fun w => (Normal (this w), w, []).
Definition get_page : M Page := fun w => (Normal (page w), w, []).
Definition put_this (a : ARQV30App) : M unit :=
  fun w => (Normal tt, {| this := a; page := page w |}, []).
Definition put_page (p : Page) : M unit :=
  fun w => (Normal tt, {| this := this w; page := p |}, []).

Definition world_of {A} (r : completion A * World * list Event) : World :=
  snd (fst r).
Definition events_of {A} (r : completion A * World * list Event) : list Event :=
  snd r.
Definition result_of {A} (r : completion A * World * list Event) : completion A :=
  fst (fst r).

(** [await p] for a promise that settles as the sum says. *)
Definition await {A} (p : string + A) : M A :=
  match p with
  | inl message => throw message
  | inr a => ret a
  end.

(** The requests a run of events has sent to [url]. *)
Definition requests_to (url : string) (es : list Event) : list RequestInit :=
  flat_map (fun e =>
              match e with
              | Fetch u init => if String.eqb u url then [init] else []
              | _ => []
              end) es.

Definition notifications (kind : string) (es : list Event) : list string :=
  flat_map (fun e =>
              match e with
              | ShowNotification m k => if String.eqb k kind then [m] else []
              | _ => []
              end) es.

(* ================================================================= *)
(** ** The methods of [ARQV30App] *)

(** *** Session *)

(** ['session_' + Date.now() + '_' + Math.random().toString(36).substr(2, 9)].
    [now] is [Date.now()], a time value, hence an integer below 10^21 that
    prints as its digits; [random36] is [Math.random().toString(36)]. *)
Definition generateSessionId (now : N) (random36 : string) : string :=
  "session_" ++ digits now ++ "_" ++ substring 2 9 random36.

(** The fields the constructor sets before [init]. *)
Definition constructor (now : N) (random36 : string) : ARQV30App :=
  {| sessionId := generateSessionId now random36;
     uploadedFiles := [];
     currentAnalysis := null |}.

(** *** Notifications *)

(** [showError] and [showSuccess] are the call of [showNotification],
    recorded as an event.  [showNotification] writes the message into
    [innerHTML] without escaping and then reads the close button back: a
    message whose markup hides the button (an unclosed comment or tag)
    makes that read [null] and the method throws after the call is made.
    The model covers the messages for which it returns, any message
    without the character [<] among them. *)
Definition showError (message : string) : M unit :=
  emit (ShowNotification message "error").

Definition showSuccess (message : string) : M unit :=
  emit (ShowNotification message "success").

(** *** Form collection and validation *)

(** The entry list of [new FormData(form)]; the fields of the form are
    text inputs. *)
Definition FormData : Type := list (string * string).

(** [formData.get(name)]: the first value of that name, or [null]. *)
Definition FormData_get (formData : FormData) (name : string) : prim :=
  match lookup formData name with
  | Some s => PStr s
  | None => PNull
  end.

(** [formData.get(name) ? parseFloat(formData.get(name)) : null]. *)
Definition number_field (formData : FormData) (name : string) : prim :=
  if truthy_prim (FormData_get formData name)
  then PNum (parseFloat (primToString (FormData_get formData name)))
  else PNull.

(** The loop over [Object.keys(data)] that deletes the properties whose
    value is [===] to the empty string or to [null]. *)
Definition remove_empty_values (data : list (string * prim))
  : list (string * prim) :=
  fold_left
    (fun data key =>
       match lookup data key with
       | Some v =>
           if strict_equals v (PStr "") || strict_equals v PNull
           then delete data key
           else data
       | None => data
       end)
    (keys data) data.

Definition collectFormData (app : ARQV30App) (formData : FormData)
  : list (string * prim) :=
  let data :=
    [ ("session_id", PStr (sessionId app));
      ("segmento", FormData_get formData "segmento");
      ("produto", FormData_get formData "produto");
      ("preco", number_field formData "preco");
      ("publico", FormData_get formData "publico");
      ("objetivo_receita", number_field formData "objetivo_receita");
      ("orcamento_marketing", number_field formData "orcamento_marketing");
      ("prazo_lancamento", FormData_get formData "prazo_lancamento");
      ("concorrentes", FormData_get formData "concorrentes");
      ("query", FormData_get formData "query");
      ("dados_adicionais", FormData_get formData "dados_adicionais") ] in
  remove_empty_values data.

(** [data.name], [undefined] when the object has no such property. *)
Definition property (data : list (string * prim)) (name : string) : prim :=
  match lookup data name with
  | Some v => v
  | None => PUndefined
  end.

(** [!data.segmento] shows the error and refuses the data. *)
Definition validateFormData (data : list (string * prim)) : M bool :=
  if negb (truthy_prim (property data "segmento")) then
    showError (html "O campo ~Segmento de Mercado~ é obrigatório.") ;;
    ret false
  else ret true.

(** *** Analysis request *)

Definition showLoading : M unit := emit ShowLoading.
Definition hideLoading : M unit := emit HideLoading.

Definition set_resultsSection (display : string) : M unit :=
  p <- get_page ;;
  put_page {| analysisForm := analysisForm p;
              uploadedFilesContainer := uploadedFilesContainer p;
              resultsSection := Some display;
              resultsContent := resultsContent p |}.

(** The display of #resultsSection is state; the event [RenderResults]
    stands for the rest of the method: the HTML of [buildResultsHTML]
    written into #resultsContent, the scroll and the click handlers.
    [buildResultsHTML] throws on a result that is [null] or whose
    sections do not have the shape it reads; the model covers the results
    it renders, and what it states before the rendering (the request, the
    stored analysis) holds for every result. *)
Definition displayResults (result : value) : M unit :=
  p <- get_page ;;
  match resultsSection p with
  | Some _ =>
      if resultsContent p then
        emit (RenderResults result) ;;
        set_resultsSection "block"
      else ret tt
  | None => ret tt
  end.

Definition set_currentAnalysis (result : value) : M unit :=
  a <- get_this ;;
  put_this {| sessionId := sessionId a;
              uploadedFiles := uploadedFiles a;
              currentAnalysis := result |}.

(** [await fetch(url, init)]: the request goes out, then the promise
    rejects or gives the response, here its [ok] flag and its body. *)
Definition fetch {A} (url : string) (init : RequestInit) (answer : Answer A)
  : M (bool * (string + A)) :=
  emit (Fetch url init) ;;
  match answer with
  | Rejected message => throw message
  | Responded ok payload => ret (ok, payload)
  end.

(** The message of [new Error(v || default)]. *)
Definition or_default (v : value) (default : string) : string :=
  if truthy v then toString v else default.

Definition performAnalysis (data : list (string * prim)) (answer : Answer value)
  : M unit :=
  try_catch
    (showLoading ;;
     response <- fetch "/api/analyze"
                   {| method := "POST";
                      headers := [("Content-Type", "application/json")];
                      body := TextBody (stringify (object_of data)) |}
                   answer ;;
     (if negb (fst response) then
        errorData <- await (snd response) ;;
        message <- await (get errorData "message") ;;
        throw (or_default message "Erro na análise")
      else ret tt) ;;
     result <- await (snd response) ;;
     set_currentAnalysis result ;;
     hideLoading ;;
     displayResults result)
    (fun message =>
       emit (ConsoleError "Erro na análise:" message) ;;
       hideLoading ;;
       showError ("Erro ao realizar análise: " ++ message)).

Definition handleFormSubmit (form : FormData) (answer : Answer value) : M unit :=
  emit PreventDefault ;;
  app <- get_this ;;
  let formData := collectFormData app form in
  valid <- validateFormData formData ;;
  if negb valid then ret tt
  else performAnalysis formData answer.

(** *** Results rendering *)

Fixpoint map_index {A B : Type} (f : A -> nat -> B) (l : list A) (index : nat)
  : list B :=
  match l with
  | [] => []
  | x :: l' => f x index :: map_index f l' (S index)
  end.

(** The fixed text of the templates of [buildInsightsSection]. *)
Definition insights_open : string :=
  html "
            <div class=~result-section~>
                <div class=~result-section-header~>
                    <i class=~fas fa-lightbulb~></i>
                    <h4>Insights Exclusivos</h4>
                </div>
                <div class=~result-section-content~>
                    <div class=~insights-showcase~>
                        ".

Definition insights_close : string :=
  html "
                    </div>
                </div>
            </div>
        ".

Definition card_open : string :=
  html "
                            <div class=~insight-card~>
                                <div class=~insight-number~>".

Definition card_middle : string :=
  html "</div>
                                <div class=~insight-content~>".

Definition card_close : string :=
  html "</div>
                            </div>
                        ".

(** One card: the callback of [insights.map]; [index + 1] is a small
    integer, which prints as its digits. *)
Definition insight_card (insight : value) (index : nat) : string :=
  card_open ++ digits (N.of_nat (index + 1)) ++ card_middle
  ++ toString insight ++ card_close.

(** [insights] is the array under [insights_exclusivos]. *)
Definition buildInsightsSection (insights : list value) : string :=
  insights_open
  ++ join "" (map_index insight_card insights 0)
  ++ insights_close.

(** The object under [estrategia_palavras_chave], read at its two lists:
    [None] for a list that is absent or [null]. *)
Record Marketing : Type := {
  palavras_primarias : option (list value);
  palavras_secundarias : option (list value)
}.

(** The fixed text of the templates of [buildMarketingSection]. *)
Definition marketing_open : string :=
  html "
            <div class=~result-section~>
                <div class=~result-section-header~>
                    <i class=~fas fa-bullhorn~></i>
                    <h4>Estratégia de Marketing</h4>
                </div>
                <div class=~result-section-content~>
        ".

Definition marketing_close : string :=
  html "
                </div>
            </div>
        ".

Definition primary_open : string :=
  html "
                <div class=~expandable-section expanded~>
                    <div class=~expandable-header~>
                        <div class=~expandable-title~>
                            <i class=~fas fa-key~></i>
                            Palavras-Chave Primárias
                        </div>
                        <i class=~fas fa-chevron-down expandable-icon~></i>
                    </div>
                    <div class=~expandable-content~>
                        <div class=~keyword-tags~>
                            ".

Definition primary_close : string :=
  html "
                        </div>
                    </div>
                </div>
            ".

Definition secondary_open : string :=
  html "
                <div class=~expandable-section~>
                    <div class=~expandable-header~>
                        <div class=~expandable-title~>
                            <i class=~fas fa-tags~></i>
                            Palavras-Chave Secundárias
                        </div>
                        <i class=~fas fa-chevron-down expandable-icon~></i>
                    </div>
                    <div class=~expandable-content~>
                        <div class=~keyword-tags~>
                            ".

Definition secondary_close : string :=
  html "
                        </div>
                    </div>
                </div>
            ".

Definition tag_open : string :=
  html "
                                <span class=~keyword-tag~>".

Definition tag_close : string :=
  html "</span>
                            ".

Definition secondary_tag_open : string :=
  html "
                                <span class=~keyword-tag secondary~>".

Definition secondary_tag_close : string :=
  html "</span>
                            ".

Definition keyword_tag (keyword : value) : string :=
  tag_open ++ toString keyword ++ tag_close.

Definition keyword_tag_secondary (keyword : value) : string :=
  secondary_tag_open ++ toString keyword ++ secondary_tag_close.

Definition primary_block (tags : list string) : string :=
  primary_open ++ join "" tags ++ primary_close.

Definition secondary_block (tags : list string) : string :=
  secondary_open ++ join "" tags ++ secondary_close.

(** [slice(0, n)] of an array. *)
Definition slice0 {A : Type} (n : nat) (l : list A) : list A := firstn n l.

Definition buildMarketingSection (marketing : Marketing) : string :=
  let html0 := marketing_open in
  let html1 :=
    match palavras_primarias marketing with
    | Some l =>
        if (0 <? length l)%nat
        then html0 ++ primary_block (map keyword_tag l)
        else html0
    | None => html0
    end in
  let html2 :=
    match palavras_secundarias marketing with
    | Some l =>
        if (0 <? length l)%nat
        then html1 ++ secondary_block (map keyword_tag_secondary (slice0 10 l))
        else html1
    | None => html1
    end in
  html2 ++ marketing_close.

(** *** File upload *)

(** [x.toFixed(fractionDigits)] for a rational [0 <= x < 10^21]: the
    integer nearest to [x * 10^f], the larger one on a tie, written with
    [f] digits after the point. *)
Definition toFixed (x : Q) (fractionDigits : nat) : string :=
  let f := fractionDigits in
  let n := Qfloor (x * inject_Z (10 ^ Z.of_nat f) + (1 # 2))%Q in
  let m := list_ascii_of_string (digits (Z.to_N n)) in
  match f with
  | O => string_of_list_ascii m
  | _ =>
      let m := if (length m <=? f)%nat then (zeros (f + 1 - length m) ++ m)%list else m in
      let k := length m in
      string_of_list_ascii
        (firstn (k - f) m ++ "."%char :: skipn (k - f) m)
  end.

(** [Math.floor(Math.log(bytes) / Math.log(1024))] at its real value, the
    integer logarithm of [bytes] in base [1024 = 2^10]; the rounding of the
    two binary64 logarithms is not modelled.  The binary64 quotient can
    reach the next integer for a size a few bytes below a high power of
    1024 (from 2^50 on, where the unit is past the table either way); at
    the sizes below 2^40 the two floors agree. *)
Definition floor_log_1024 (bytes : N) : nat := N.to_nat (N.log2 bytes / 10).

Definition formatFileSize (bytes : N) : string :=
  if (bytes =? 0)%N then "0 Bytes"
  else
    let k := 1024%Z in
    let sizes := ["Bytes"; "KB"; "MB"; "GB"] in
    let i := floor_log_1024 bytes in
    primToString
      (PNum (parseFloat
               (toFixed (inject_Z (Z.of_N bytes) / inject_Z (k ^ Z.of_nat i))%Q 2)))
    ++ " " ++ nth i sizes "undefined".

Definition file_item (file : UploadedFile) : string :=
  html "
            <div class=~file-item~ data-file-id=~" ++ primToString (id file)
  ++ html "~>
                <div class=~file-info~>
                    <i class=~fas fa-file-alt~></i>
                    <div>
                        <div class=~file-name~>" ++ name file
  ++ html "</div>
                        <div class=~file-size~>" ++ formatFileSize (size file)
  ++ html " • " ++ toString (type file)
  ++ html "</div>
                    </div>
                </div>
                <button class=~file-remove~ onclick=~app.removeFile('" ++ primToString (id file)
  ++ html "')~>
                    <i class=~fas fa-times~></i>
                </button>
            </div>
        ".

Definition set_container (innerHTML : string) : M unit :=
  p <- get_page ;;
  put_page {| analysisForm := analysisForm p;
              uploadedFilesContainer := Some innerHTML;
              resultsSection := resultsSection p;
              resultsContent := resultsContent p |}.

Definition updateUploadedFilesList : M unit :=
  p <- get_page ;;
  app <- get_this ;;
  match uploadedFilesContainer p with
  | None => ret tt
  | Some _ =>
      if (length (uploadedFiles app) =? 0)%nat then set_container ""
      else set_container (join "" (map file_item (uploadedFiles app)))
  end.

Definition set_uploadedFiles (files : list UploadedFile) : M unit :=
  a <- get_this ;;
  put_this {| sessionId := sessionId a;
              uploadedFiles := files;
              currentAnalysis := currentAnalysis a |}.

(** [this.uploadedFiles.push(descriptor)]. *)
Definition push (descriptor : UploadedFile) : M unit :=
  a <- get_this ;;
  set_uploadedFiles (uploadedFiles a ++ [descriptor]).

(** [now] is [Date.now()], read when the answer carries no id.  A body
    that is [null] makes the read of [result.success] throw: it is an
    answer whose payload rejects. *)
Definition uploadFile (file : File.t) (now : N) (answer : Answer UploadResult)
  : M unit :=
  try_catch
    (app <- get_this ;;
     response <- fetch "/api/upload_attachment"
                   {| method := "POST";
                      headers := [];
                      body := FormDataBody
                                [ ("file", FileEntry file);
                                  ("session_id", StringEntry (sessionId app)) ] |}
                   answer ;;
     result <- await (snd response) ;;
     if truthy (success result) then
       push {| name := File.name file;
               size := File.size file;
               type := content_type result;
               id := or_else (attachment_id result) (PNum (of_N now)) |} ;;
       updateUploadedFilesList ;;
       showSuccess (html "Arquivo ~" ++ File.name file
                    ++ html "~ processado com sucesso!")
     else throw (or_default (error result) "Erro ao processar arquivo"))
    (fun message =>
       emit (ConsoleError "Erro no upload:" message) ;;
       showError (html "Erro ao processar ~" ++ File.name file
                  ++ html "~: " ++ message)).

Definition removeFile (fileId : prim) : M unit :=
  a <- get_this ;;
  set_uploadedFiles
    (filter (fun file => negb (strict_equals (id file) fileId)) (uploadedFiles a)) ;;
  updateUploadedFilesList.

(** *** PDF download *)

(** [isoNow] is [new Date().toISOString()]. *)
Definition downloadPDF (isoNow : string) (answer : Answer unit) : M unit :=
  app <- get_this ;;
  if negb (truthy (currentAnalysis app)) then
    showError "Nenhuma análise disponível para download."
  else
    try_catch
      (response <- fetch "/api/generate_pdf"
                     {| method := "POST";
                        headers := [("Content-Type", "application/json")];
                        body := TextBody (stringify (currentAnalysis app)) |}
                     answer ;;
       (if negb (fst response) then throw "Erro ao gerar PDF" else ret tt) ;;
       blob <- await (snd response) ;;
       emit (SaveFile ("analise_mercado_" ++ substring 0 10 isoNow ++ ".pdf")))
      (fun message =>
         emit (ConsoleError "Erro ao baixar PDF:" message) ;;
         showError ("Erro ao gerar PDF: " ++ message)).

(** *** New analysis *)

Definition set_sessionId (s : string) : M unit :=
  a <- get_this ;;
  put_this {| sessionId := s;
              uploadedFiles := uploadedFiles a;
              currentAnalysis := currentAnalysis a |}.

Definition startNewAnalysis (now : N) (random36 : string) : M unit :=
  p <- get_page ;;
  (if analysisForm p then emit FormReset else ret tt) ;;
  set_uploadedFiles [] ;;
  updateUploadedFilesList ;;
  p <- get_page ;;
  match resultsSection p with
  | Some _ => set_resultsSection "none"
  | None => ret tt
  end ;;
  set_sessionId (generateSessionId now random36) ;;
  set_currentAnalysis null ;;
  emit ScrollToTop.

(** [for (const file of files) await this.uploadFile(file)]: the files
    one after the other, each with the clock reading and the answer its
    upload meets. *)
Fixpoint processFiles (uploads : list (File.t * N * Answer UploadResult))
  : M unit :=
  match uploads with
  | [] => ret tt
  | (file, now, answer) :: rest =>
      uploadFile file now answer ;;
      processFiles rest
  end.

(** *** Labels *)

(** The table of [formatLabel]. *)
Definition labels : list (string * string) :=
  [ ("idade", "Idade");
    ("genero", "Gênero");
    ("renda", "Renda");
    ("escolaridade", "Escolaridade");
    ("localizacao", "Localização");
    ("estado_civil", "Estado Civil");
    ("filhos", "Filhos");
    ("personalidade", "Personalidade");
    ("valores", "Valores");
    ("interesses", "Interesses");
    ("estilo_vida", "Estilo de Vida");
    ("comportamento_compra", "Comportamento de Compra");
    ("influenciadores", "Influenciadores") ].

(** The names an object literal inherits from [Object.prototype]: at one
    of them [labels[key]] is a function or an object, not a label. *)
Definition inherited_names : list string :=
  [ "constructor"; "hasOwnProperty"; "isPrototypeOf"; "propertyIsEnumerable";
    "toLocaleString"; "toString"; "valueOf"; "__proto__";
    "__defineGetter__"; "__defineSetter__";
    "__lookupGetter__"; "__lookupSetter__" ].

(** [s.replace('_', ' ')]: a string pattern replaces its first
    occurrence only. *)
Fixpoint replace_first_underscore (s : string) : string :=
  match s with
  | EmptyString => ""
  | String c s' =>
      if Ascii.eqb c "_" then String " " s'
      else String c (replace_first_underscore s')
  end.

(** The class [\w]. *)
Definition is_word (c : ascii) : bool :=
  let n := nat_of_ascii c in
  ((48 <=? n) && (n <=? 57) || (65 <=? n) && (n <=? 90)
   || (97 <=? n) && (n <=? 122) || (n =? 95))%nat.

(** [l.toUpperCase()] for one character of the class [\w]. *)
Definition toUpperCase (c : ascii) : ascii :=
  let n := nat_of_ascii c in
  if ((97 <=? n) && (n <=? 122))%nat then ascii_of_nat (n - 32) else c.

(** [s.replace(/\b\w/g, l => l.toUpperCase())]: a word character that
    follows the start or a character outside [\w] is a match;
    [after_word] tells whether the character before is in [\w]. *)
Fixpoint capitalize_words (after_word : bool) (s : string) : string :=
  match s with
  | EmptyString => ""
  | String c s' =>
      String (if is_word c && negb after_word then toUpperCase c else c)
             (capitalize_words (is_word c) s')
  end.

(** [formatLabel(key)], where it is a label: [None] at an inherited name. *)
Definition formatLabel (key : string) : option string :=
  if existsb (String.eqb key) inherited_names then None
  else
    match lookup labels key with
    | Some label => Some label
    | None => Some (capitalize_words false (replace_first_underscore key))
    end.

(** *** Status check *)

(** The two elements [checkAppStatus] writes: the class of
    #statusIndicator and the text of #statusText, [None] for an element
    the page does not have. *)
Record StatusBar : Type := {
  statusIndicator : option string;
  statusText : option string
}.

(** The calls of [checkAppStatus]: its request, the log of
    [updateServiceStatus], which prints the services as indented JSON,
    and the log of the error it catches. *)
Inductive StatusEvent : Type :=
| StatusFetch (url : string)
| ConsoleLog (label : string) (services : value)
| StatusError (label : string) (message : string).

Definition set_status (className text : string) : StatusBar :=
  {| statusIndicator := Some className; statusText := Some text |}.

(** [data.status === 'running'] for a value read from a JSON body. *)
Definition is_running (status : value) : bool :=
  match status with
  | Prim p => strict_equals p (PStr "running")
  | Arr _ | Obj _ => false
  end.

(** [checkAppStatus()] up to the settling of its request: the bar it
    leaves and the calls it makes.  [data.status] is read only when
    [response.ok] holds; [updateServiceStatus] logs [data.services]. *)
Definition checkAppStatus (bar : StatusBar) (answer : Answer value)
  : StatusBar * list StatusEvent :=
  match statusIndicator bar, statusText bar with
  | Some _, Some _ =>
      let offline message :=
        (set_status "status-indicator offline" "Sistema Offline",
         [StatusFetch "/api/app_status";
          StatusError "Erro ao verificar status:" message]) in
      match answer with
      | Rejected message => offline message
      | Responded ok (inl message) => offline message
      | Responded ok (inr data) =>
          if ok then
            match get data "status" with
            | inl message => offline message
            | inr status =>
                if is_running status then
                  (set_status "status-indicator online" "Sistema Online",
                   [StatusFetch "/api/app_status";
                    ConsoleLog "Status dos serviços:"
                      match get data "services" with
                      | inr services => services
                      | inl _ => undefined
                      end])
                else offline "Sistema indisponível"
            end
          else offline "Sistema indisponível"
      end
  | _, _ => (bar, [])
  end.

(* ================================================================= *)
(** ** Vocabulary of the properties *)

(** The test of the loop that removes empty values. *)
Definition is_empty (v : prim) : bool :=
  strict_equals v (PStr "") || strict_equals v PNull.

(** A field of the form that is empty or absent. *)
Definition blank (p : prim) : Prop := p = PNull \/ p = PStr "".

Definition numeric_fields : list string :=
  ["preco"; "objetivo_receita"; "orcamento_marketing"].

(** The fields of the form other than [segmento]. *)
Definition other_fields : list string :=
  ["produto"; "preco"; "publico"; "objetivo_receita"; "orcamento_marketing";
   "prazo_lancamento"; "concorrentes"; "query"; "dados_adicionais"].

(** The request [performAnalysis] sends for [data]. *)
Definition analyze_request (data : list (string * prim)) : RequestInit :=
  {| method := "POST";
     headers := [("Content-Type", "application/json")];
     body := TextBody (stringify (object_of data)) |}.

Definition segmento_required_message : string :=
  html "O campo ~Segmento de Mercado~ é obrigatório.".

(** An upload that fails: the request throws, the answer does not parse,
    or its success flag is falsy. *)
Definition upload_failed (answer : Answer UploadResult) : Prop :=
  match answer with
  | Rejected _ => True
  | Responded _ (inl _) => True
  | Responded _ (inr result) => truthy (success result) = false
  end.

(** The id [uploadFile] gives the descriptor of a successful upload. *)
Definition descriptor_id (result : UploadResult) (now : N) : prim :=
  or_else (attachment_id result) (PNum (of_N now)).

(** The descriptor [uploadFile] appends after a successful upload. *)
Definition new_descriptor (file : File.t) (result : UploadResult) (now : N)
  : UploadedFile :=
  {| name := File.name file;
     size := File.size file;
     type := content_type result;
     id := descriptor_id result now |}.

(** Two upload lists with the same descriptors, in any order. *)
Definition same_files (l1 l2 : list UploadedFile) : Prop :=
  forall f, In f l1 <-> In f l2.

(** Results are hidden when #resultsSection, if the page has one, is not
    displayed. *)
Definition results_hidden (p : Page) : Prop :=
  match resultsSection p with
  | Some display => display = "none"
  | None => True
  end.

(** The page after [startNewAnalysis]: the upload container emptied and
    the results section not displayed, for the elements the page has. *)
Definition reset_page (p : Page) : Page :=
  {| analysisForm := analysisForm p;
     uploadedFilesContainer :=
       match uploadedFilesContainer p with Some _ => Some "" | None => None end;
     resultsSection :=
       match resultsSection p with Some _ => Some "none" | None => None end;
     resultsContent := resultsContent p |}.

Fixpoint only_digits (s : string) : Prop :=
  match s with
  | EmptyString => True
  | String c s' => is_digit c = true /\ only_digits s'
  end.

(** The array a field of the payload holds, empty when it is absent. *)
Definition list_of (field : option (list value)) : list value :=
  match field with
  | Some l => l
  | None => []
  end.

(** A block of tags, which the section leaves out when there is no tag. *)
Definition block (wrap : list string -> string) (tags : list string) : string :=
  match tags with
  | [] => ""
  | _ => wrap tags
  end.

(** One step of the loop, then the whole loop, seen from a property. *)
Definition kept (v : option prim) : option prim :=
  match v with
  | Some x => if is_empty x then None else Some x
  | None => None
  end.

Definition remove_step (data : list (string * prim)) (key : string)
  : list (string * prim) :=
  match lookup data key with
  | Some v =>
      if strict_equals v (PStr "") || strict_equals v PNull
      then delete data key
      else data
  | None => data
  end.

Definition survives (key : string) (kv : string * prim) : bool :=
  negb (String.eqb (fst kv) key && is_empty (snd kv)).

(** The object [collectFormData] builds before it removes empty values. *)
Definition collected (app : ARQV30App) (formData : FormData)
  : list (string * prim) :=
  [ ("session_id", PStr (sessionId app));
    ("segmento", FormData_get formData "segmento");
    ("produto", FormData_get formData "produto");
    ("preco", number_field formData "preco");
    ("publico", FormData_get formData "publico");
    ("objetivo_receita", number_field formData "objetivo_receita");
    ("orcamento_marketing", number_field formData "orcamento_marketing");
    ("prazo_lancamento", FormData_get formData "prazo_lancamento");
    ("concorrentes", FormData_get formData "concorrentes");
    ("query", FormData_get formData "query");
    ("dados_adicionais", FormData_get formData "dados_adicionais") ].

(** *** Vocabulary of the further properties *)

(** The text fields of the form. *)
Definition text_fields : list string :=
  ["segmento"; "produto"; "publico"; "prazo_lancamento"; "concorrentes";
   "query"; "dados_adicionais"].

(** The message of the error [performAnalysis] catches, when the answer
    makes it fail: the request or the reading of the body rejects, or the
    status is not a success and the body gives the message, if it has
    one. *)
Definition analysis_error (answer : Answer value) : option string :=
  match answer with
  | Rejected message => Some message
  | Responded _ (inl message) => Some message
  | Responded false (inr errorData) =>
      match get errorData "message" with
      | inl message => Some message
      | inr message => Some (or_default message "Erro na análise")
      end
  | Responded true (inr _) => None
  end.

(** The list the page shows is the rendering of the upload list, when
    the page has the container. *)
Definition list_shown (w : World) : Prop :=
  match uploadedFilesContainer (page w) with
  | Some innerHTML =>
      innerHTML = join "" (map file_item (uploadedFiles (this w)))
  | None => True
  end.

(** The descriptors a run of uploads appends: one per upload whose answer
    has a truthy success flag. *)
Definition accepted (uploads : list (File.t * N * Answer UploadResult))
  : list UploadedFile :=
  flat_map (fun u =>
              match u with
              | (file, now, Responded _ (inr result)) =>
                  if truthy (success result)
                  then [new_descriptor file result now]
                  else []
              | _ => []
              end) uploads.

(** The request [uploadFile] sends. *)
Definition upload_request (file : File.t) (session : string) : RequestInit :=
  {| method := "POST";
     headers := [];
     body := FormDataBody [ ("file", FileEntry file);
                            ("session_id", StringEntry session) ] |}.

(** The request [downloadPDF] sends for a stored analysis. *)
Definition pdf_request (analysis : value) : RequestInit :=
  {| method := "POST";
     headers := [("Content-Type", "application/json")];
     body := TextBody (stringify analysis) |}.

(** The unit [formatFileSize] names for a size. *)
Definition unit_of (bytes : N) : string :=
  if (bytes <? 1024)%N then "Bytes"
  else if (bytes <? 1024 ^ 2)%N then "KB"
  else if (bytes <? 1024 ^ 3)%N then "MB"
  else if (bytes <? 1024 ^ 4)%N then "GB"
  else "undefined".

Fixpoint count_char (c : ascii) (s : string) : nat :=
  match s with
  | EmptyString => 0
  | String x s' => (if Ascii.eqb x c then 1 else 0) + count_char c s'
  end.

(** A text without the character [<]: written into [innerHTML] it opens
    no tag and no comment, so that [showNotification] returns. *)
Definition plain (s : string) : Prop := count_char "<" s = 0%nat.

(** The message of the error [uploadFile] catches, when the answer makes
    the upload fail. *)
Definition upload_error (answer : Answer UploadResult) : option string :=
  match answer with
  | Rejected message => Some message
  | Responded _ (inl message) => Some message
  | Responded _ (inr result) =>
      if truthy (success result) then None
      else Some (or_default (error result) "Erro ao processar arquivo")
  end.

(** A text of letters, digits and underscores: pasted between quotes in
    the handler of the remove button, it is the string it writes. *)
Fixpoint word_only (s : string) : Prop :=
  match s with
  | EmptyString => True
  | String c s' => is_word c = true /\ word_only s'
  end.

(** The states a controller goes through: built by the constructor on
    some page, then driven by the methods, whatever the environment
    answers. *)
Inductive reachable : World -> Prop :=
| reach_constructor now random36 p :
    reachable {| this := constructor now random36; page := p |}
| reach_handleFormSubmit w form answer :
    reachable w -> reachable (world_of (handleFormSubmit form answer w))
| reach_uploadFile w file now answer :
    reachable w -> reachable (world_of (uploadFile file now answer w))
| reach_removeFile w fileId :
    reachable w -> reachable (world_of (removeFile fileId w))
| reach_downloadPDF w isoNow answer :
    reachable w -> reachable (world_of (downloadPDF isoNow answer w))
| reach_startNewAnalysis w now random36 :
    reachable w -> reachable (world_of (startNewAnalysis now random36 w)).

(* ================================================================= *)
(** ** Objects as property lists *)

Section PropertyLists.

Context {A : Type}.
Implicit Types (o : list (string * A)) (k key : string).

Lemma lookup_delete o key k :
  lookup (delete o key) k = if String.eqb key k then None else lookup o k.
Proof.
  unfold delete.
  induction o as [|[k0 v0] o IH]; cbn.
  - now destruct (String.eqb key k).
  - destruct (String.eqb k0 key) eqn:E0; cbn.
    + apply String.eqb_eq in E0; subst k0.
      rewrite IH. now destruct (String.eqb key k).
    + rewrite IH. destruct (String.eqb k0 k) eqn:E1; [|reflexivity].
      apply String.eqb_eq in E1; subst k0.
      rewrite String.eqb_sym in E0. now rewrite E0.
Qed.

Lemma lookup_keys o k : In k (keys o) <-> lookup o k <> None.
Proof.
  induction o as [|[k0 v0] o IH]; cbn.
  - tauto.
  - destruct (String.eqb k0 k) eqn:E.
    + apply String.eqb_eq in E. split; [discriminate | auto].
    + apply String.eqb_neq in E. rewrite <- IH. tauto.
Qed.

End PropertyLists.

Lemma lookup_remove_step data key k :
  lookup (remove_step data key) k =
  if String.eqb key k then kept (lookup data k) else lookup data k.
Proof.
  unfold remove_step, kept, is_empty.
  destruct (String.eqb key k) eqn:E.
  - apply String.eqb_eq in E; subst k.
    destruct (lookup data key) as [v|] eqn:L; [|now rewrite L].
    destruct (strict_equals v (PStr "") || strict_equals v PNull).
    + now rewrite lookup_delete, String.eqb_refl.
    + now rewrite L.
  - destruct (lookup data key) as [v|]; [|reflexivity].
    destruct (strict_equals v (PStr "") || strict_equals v PNull);
      [|reflexivity].
    now rewrite lookup_delete, E.
Qed.

Lemma kept_idem v : kept (kept v) = kept v.
Proof.
  destruct v as [x|]; cbn; [|reflexivity].
  destruct (is_empty x) eqn:E; cbn; [reflexivity | now rewrite E].
Qed.

Lemma lookup_remove_loop ks data k :
  lookup (fold_left remove_step ks data) k =
  if existsb (fun key => String.eqb key k) ks
  then kept (lookup data k) else lookup data k.
Proof.
  revert data. induction ks as [|key ks IH]; intros data; cbn.
  - reflexivity.
  - rewrite IH, lookup_remove_step.
    destruct (String.eqb key k); cbn.
    + rewrite kept_idem. now destruct (existsb _ ks).
    + reflexivity.
Qed.

(** A property survives the loop exactly when its value is neither the
    empty string nor [null]. *)
Lemma lookup_remove_empty_values data k :
  lookup (remove_empty_values data) k = kept (lookup data k).
Proof.
  unfold remove_empty_values. fold remove_step.
  change (fold_left _ (keys data) data) with (fold_left remove_step (keys data) data).
  rewrite lookup_remove_loop.
  destruct (existsb _ (keys data)) eqn:E; [reflexivity|].
  destruct (lookup data k) eqn:L; [|reflexivity].
  exfalso.
  assert (In k (keys data)) as Hin by (apply lookup_keys; congruence).
  assert (existsb (fun key => String.eqb key k) (keys data) = true) as E'.
  { apply existsb_exists. exists k. split; [assumption | apply String.eqb_refl]. }
  congruence.
Qed.

(** With distinct keys the loop is a filter on the property list. *)
Lemma lookup_In data k (x : prim) :
  NoDup (keys data) -> In (k, x) data -> lookup data k = Some x.
Proof.
  induction data as [|[k0 v0] data IH]; cbn; intros Hnd Hin; [contradiction|].
  inversion Hnd as [|? ? Hnotin Hnd']; subst.
  destruct Hin as [Heq | Hin].
  - injection Heq as -> ->. now rewrite String.eqb_refl.
  - destruct (String.eqb k0 k) eqn:E.
    + apply String.eqb_eq in E; subst k0.
      exfalso. apply Hnotin. unfold keys.
      change k with (fst (k, x)). now apply in_map.
    + now apply IH.
Qed.

Lemma lookup_None_In data k (x : prim) :
  lookup data k = None -> In (k, x) data -> False.
Proof.
  intros L Hin.
  assert (In k (keys data)) as Hk.
  { unfold keys. change k with (fst (k, x)). now apply in_map. }
  apply lookup_keys in Hk. now apply Hk.
Qed.

Lemma filter_all {B : Type} (p : B -> bool) (l : list B) :
  (forall x, In x l -> p x = true) -> filter p l = l.
Proof.
  induction l as [|a l IH]; cbn; intros H; [reflexivity|].
  rewrite (H a) by now left.
  f_equal. apply IH. intros x Hx. apply H. now right.
Qed.

Lemma filter_twice {B : Type} (p q : B -> bool) (l : list B) :
  filter q (filter p l) = filter (fun x => p x && q x) l.
Proof.
  induction l as [|a l IH]; cbn; [reflexivity|].
  destruct (p a); cbn; [|assumption].
  destruct (q a); now rewrite IH.
Qed.

Lemma NoDup_keys_filter (p : string * prim -> bool) data :
  NoDup (keys data) -> NoDup (keys (filter p data)).
Proof.
  unfold keys.
  induction data as [|kv data IH]; cbn; intros Hnd; [constructor|].
  inversion Hnd as [|? ? Hnotin Hnd']; subst.
  destruct (p kv); cbn; [|now apply IH].
  constructor; [|now apply IH].
  intros Hin. apply Hnotin.
  apply in_map_iff in Hin as [y [Hy Hin]].
  apply filter_In in Hin as [Hin _].
  rewrite <- Hy. now apply in_map.
Qed.

Lemma remove_step_filter data key :
  NoDup (keys data) -> remove_step data key = filter (survives key) data.
Proof.
  intros Hnd. unfold remove_step.
  destruct (lookup data key) as [v|] eqn:L.
  - fold (is_empty v). destruct (is_empty v) eqn:E.
    + unfold delete. apply filter_ext_in. intros [k0 x] Hin.
      unfold survives; cbn.
      destruct (String.eqb k0 key) eqn:E0; cbn; [|reflexivity].
      apply String.eqb_eq in E0; subst k0.
      rewrite (lookup_In _ _ _ Hnd Hin) in L. injection L as ->.
      now rewrite E.
    + symmetry. apply filter_all. intros [k0 x] Hin.
      unfold survives; cbn.
      destruct (String.eqb k0 key) eqn:E0; cbn; [|reflexivity].
      apply String.eqb_eq in E0; subst k0.
      rewrite (lookup_In _ _ _ Hnd Hin) in L. injection L as ->.
      now rewrite E.
  - symmetry. apply filter_all. intros [k0 x] Hin.
    unfold survives; cbn.
    destruct (String.eqb k0 key) eqn:E0; cbn; [|reflexivity].
    apply String.eqb_eq in E0; subst k0.
    exfalso. eapply lookup_None_In; eauto.
Qed.

Lemma remove_loop_filter ks data :
  NoDup (keys data) ->
  fold_left remove_step ks data =
  filter (fun kv => forallb (fun key => survives key kv) ks) data.
Proof.
  revert data. induction ks as [|key ks IH]; intros data Hnd; cbn.
  - symmetry. now apply filter_all.
  - rewrite remove_step_filter by assumption.
    rewrite IH by now apply NoDup_keys_filter.
    apply filter_twice.
Qed.

Lemma remove_empty_values_filter data :
  NoDup (keys data) ->
  remove_empty_values data = filter (fun kv => negb (is_empty (snd kv))) data.
Proof.
  intros Hnd.
  change (remove_empty_values data) with (fold_left remove_step (keys data) data).
  rewrite remove_loop_filter by assumption.
  apply filter_ext_in. intros [k x] Hin. cbn.
  destruct (is_empty x) eqn:E; cbn.
  - apply not_true_is_false. intros Hall.
    rewrite forallb_forall in Hall.
    assert (In k (keys data)) as Hk.
    { unfold keys. change k with (fst (k, x)). now apply in_map. }
    specialize (Hall k Hk). unfold survives in Hall; cbn in Hall.
    now rewrite String.eqb_refl, E in Hall.
  - apply forallb_forall. intros key _. unfold survives; cbn.
    rewrite E. now rewrite andb_false_r.
Qed.

(** *** The fields of the form *)

Lemma FormData_get_cases formData name :
  FormData_get formData name = PNull
  \/ exists s, FormData_get formData name = PStr s.
Proof.
  unfold FormData_get. destruct (lookup formData name); eauto.
Qed.

Lemma blank_is_empty p : blank p -> is_empty p = true.
Proof. now intros [-> | ->]. Qed.

Lemma number_field_blank formData name :
  blank (FormData_get formData name) -> number_field formData name = PNull.
Proof. unfold number_field. now intros [-> | ->]. Qed.

Lemma truthy_nonempty s : s <> "" -> truthy_prim (PStr s) = true.
Proof.
  intros H. cbn. destruct (String.eqb s "") eqn:E; [|reflexivity].
  now apply String.eqb_eq in E.
Qed.

Lemma is_empty_nonempty s : s <> "" -> is_empty (PStr s) = false.
Proof.
  intros H. unfold is_empty; cbn. rewrite orb_false_r.
  now apply String.eqb_neq.
Qed.

Lemma number_field_text formData name s :
  FormData_get formData name = PStr s -> s <> "" ->
  number_field formData name = PNum (parseFloat s).
Proof.
  intros E H. unfold number_field. rewrite E.
  now rewrite truthy_nonempty.
Qed.

Lemma collected_keys app formData : NoDup (keys (collected app formData)).
Proof.
  cbn. repeat (constructor; [cbn; intuition discriminate|]). constructor.
Qed.

Lemma lookup_collectFormData app formData k :
  lookup (collectFormData app formData) k
  = kept (lookup (collected app formData) k).
Proof. apply lookup_remove_empty_values. Qed.

Lemma collectFormData_filter app formData :
  collectFormData app formData
  = filter (fun kv => negb (is_empty (snd kv))) (collected app formData).
Proof. apply remove_empty_values_filter, collected_keys. Qed.

(* ================================================================= *)
(** ** Form submission *)

(** [performAnalysis] sends one request to /api/analyze, whatever the
    answer, and its body is the serialised data. *)
Lemma performAnalysis_requests data answer w :
  requests_to "/api/analyze" (events_of (performAnalysis data answer w))
  = [analyze_request data].
Proof.
  destruct w as [a [f c r rc]].
  destruct answer as [msg | ok [msg | v]].
  - reflexivity.
  - destruct ok; reflexivity.
  - destruct ok.
    + destruct r as [d|]; [destruct rc|]; reflexivity.
    + destruct v as [[| | | |]| |props]; try reflexivity.
      unfold performAnalysis, try_catch, bind, fetch, await, get; cbn.
      destruct (lookup props "message"); reflexivity.
Qed.

Lemma validateFormData_blank data w :
  truthy_prim (property data "segmento") = false ->
  validateFormData data w
  = (Normal false, w, [ShowNotification segmento_required_message "error"]).
Proof.
  intros H. unfold validateFormData. rewrite H. reflexivity.
Qed.

Lemma validateFormData_present data w :
  truthy_prim (property data "segmento") = true ->
  validateFormData data w = (Normal true, w, []).
Proof.
  intros H. unfold validateFormData. rewrite H. reflexivity.
Qed.

Lemma property_segmento app form :
  property (collectFormData app form) "segmento"
  = if is_empty (FormData_get form "segmento") then PUndefined
    else FormData_get form "segmento".
Proof.
  unfold property. rewrite lookup_collectFormData. cbn.
  now destruct (is_empty (FormData_get form "segmento")).
Qed.

Lemma handleFormSubmit_invalid form answer w :
  truthy_prim (property (collectFormData (this w) form) "segmento") = false ->
  handleFormSubmit form answer w
  = (Normal tt, w,
     [PreventDefault; ShowNotification segmento_required_message "error"]).
Proof.
  intros H. unfold handleFormSubmit, bind, emit, get_this. cbv beta iota.
  rewrite (validateFormData_blank _ _ H). reflexivity.
Qed.

Lemma handleFormSubmit_valid form answer w :
  truthy_prim (property (collectFormData (this w) form) "segmento") = true ->
  events_of (handleFormSubmit form answer w)
  = PreventDefault
      :: events_of (performAnalysis (collectFormData (this w) form) answer w).
Proof.
  intros H. unfold handleFormSubmit, bind, emit, get_this. cbv beta iota.
  rewrite (validateFormData_present _ _ H).
  change (negb true) with false. cbv beta iota.
  now destruct (performAnalysis _ answer w) as [[r w2] es2].
Qed.

Lemma requests_to_PreventDefault url es :
  requests_to url (PreventDefault :: es) = requests_to url es.
Proof. reflexivity. Qed.

(** C5.  A submission whose segmento is unset or empty is refused: the
    controller shows the error notification, changes nothing and sends no
    request; with any other segmento the request to /api/analyze goes
    out, whatever the other fields hold. *)
Theorem segmento_is_the_only_required_field form answer w :
  (blank (FormData_get form "segmento") ->
   handleFormSubmit form answer w
   = (Normal tt, w,
      [PreventDefault; ShowNotification segmento_required_message "error"])
   /\ requests_to "/api/analyze" (events_of (handleFormSubmit form answer w)) = []
   /\ notifications "error" (events_of (handleFormSubmit form answer w))
      = [segmento_required_message])
  /\ (~ blank (FormData_get form "segmento") ->
      requests_to "/api/analyze" (events_of (handleFormSubmit form answer w))
      = [analyze_request (collectFormData (this w) form)]).
Proof.
  split.
  - intros Hb.
    assert (handleFormSubmit form answer w
            = (Normal tt, w,
               [PreventDefault;
                ShowNotification segmento_required_message "error"])) as E.
    { apply handleFormSubmit_invalid. rewrite property_segmento.
      now rewrite (blank_is_empty _ Hb). }
    rewrite E. repeat split; reflexivity.
  - intros Hnb.
    destruct (FormData_get_cases form "segmento") as [E | [s E]].
    { exfalso. apply Hnb. now left. }
    assert (s <> "") as Hs.
    { intros ->. apply Hnb. now right. }
    rewrite handleFormSubmit_valid.
    + rewrite requests_to_PreventDefault. apply performAnalysis_requests.
    + rewrite property_segmento, E, (is_empty_nonempty _ Hs).
      now apply truthy_nonempty.
Qed.

Lemma segmento_is_the_only_required_field_witness :
  let form := [("segmento", ""); ("produto", "Curso")] in
  let w := {| this := constructor 1700000000000 "0.4fzyo82mvyr";
              page := {| analysisForm := true;
                         uploadedFilesContainer := Some "";
                         resultsSection := Some "none";
                         resultsContent := true |} |} in
  requests_to "/api/analyze"
    (events_of (handleFormSubmit form (Responded true (inr (Obj []))) w)) = []
  /\ requests_to "/api/analyze"
       (events_of (handleFormSubmit [("segmento", "fitness")]
                     (Responded true (inr (Obj []))) w))
     = [analyze_request (collectFormData (this w) [("segmento", "fitness")])].
Proof.
  intros form w. split.
  - apply (proj1 (segmento_is_the_only_required_field form _ w)).
    right. reflexivity.
  - apply (proj2 (segmento_is_the_only_required_field
                    [("segmento", "fitness")] _ w)).
    intros [H | H]; discriminate H.
Defined.

Lemma append_assoc (a b c : string) : (a ++ b) ++ c = a ++ (b ++ c).
Proof. induction a as [|x a IH]; cbn; [reflexivity | now rewrite IH]. Qed.

Lemma stringify_session_segmento sid :
  stringify (object_of [("session_id", PStr sid); ("segmento", PStr "fitness")])
  = Some (html "{~session_id~:" ++ quote sid ++ html ",~segmento~:~fitness~}").
Proof.
  cbv beta iota delta [stringify object_of map fst snd stringify_prim join quote].
  rewrite !append_assoc. reflexivity.
Qed.

(** The session id of a controller is never empty: the constructor and
    [startNewAnalysis] set it from [generateSessionId]. *)
Lemma generateSessionId_nonempty now random36 :
  generateSessionId now random36 <> "".
Proof. discriminate. Qed.

(** C3.  With segmento set to fitness, every other field empty or absent
    and a session id in place, the object collected has the two
    properties session_id and segmento, and the one request sent to
    /api/analyze carries exactly that object as its JSON body. *)
Theorem submit_segmento_only form answer w
  (Hsession : sessionId (this w) <> "")
  (Hsegmento : FormData_get form "segmento" = PStr "fitness")
  (Hothers : forall name, In name other_fields -> blank (FormData_get form name)) :
  collectFormData (this w) form
  = [("session_id", PStr (sessionId (this w))); ("segmento", PStr "fitness")]
  /\ requests_to "/api/analyze" (events_of (handleFormSubmit form answer w))
     = [ {| method := "POST";
            headers := [("Content-Type", "application/json")];
            body := TextBody
                      (Some (html "{~session_id~:" ++ quote (sessionId (this w))
                             ++ html ",~segmento~:~fitness~}")) |} ].
Proof.
  assert (collectFormData (this w) form
          = [("session_id", PStr (sessionId (this w)));
             ("segmento", PStr "fitness")]) as E.
  { rewrite collectFormData_filter. unfold collected.
    rewrite !number_field_blank by (apply Hothers; cbn; tauto).
    cbn [filter snd].
    rewrite (is_empty_nonempty _ Hsession), Hsegmento.
    change (is_empty (PStr "fitness")) with false.
    change (is_empty PNull) with true.
    rewrite !blank_is_empty by (apply Hothers; cbn; tauto).
    reflexivity. }
  split; [exact E|].
  rewrite handleFormSubmit_valid.
  - rewrite requests_to_PreventDefault, performAnalysis_requests, E.
    unfold analyze_request. now rewrite stringify_session_segmento.
  - rewrite E. reflexivity.
Qed.

Lemma submit_segmento_only_witness :
  let w := {| this := constructor 1700000000000 "0.4fzyo82mvyr";
              page := {| analysisForm := true;
                         uploadedFilesContainer := Some "";
                         resultsSection := Some "none";
                         resultsContent := true |} |} in
  requests_to "/api/analyze"
    (events_of (handleFormSubmit [("segmento", "fitness"); ("produto", "")]
                  (Responded true (inr (Obj []))) w))
  = [ {| method := "POST";
         headers := [("Content-Type", "application/json")];
         body := TextBody
                   (Some (html "{~session_id~:~session_1700000000000_4fzyo82mv~,~segmento~:~fitness~}")) |} ].
Proof.
  intros w.
  refine (proj2 (submit_segmento_only
                   [("segmento", "fitness"); ("produto", "")] _ w _ _ _)).
  - discriminate.
  - reflexivity.
  - intros name Hin. cbn in Hin.
    repeat (destruct Hin as [<- | Hin]; [vm_compute; tauto|]).
    contradiction.
Defined.

(* ================================================================= *)
(** ** Numeric fields *)

(** A numeric field left empty or absent is not part of the payload. *)
Lemma numeric_field_blank_omitted app form k :
  In k numeric_fields ->
  blank (FormData_get form k) ->
  lookup (collectFormData app form) k = None.
Proof.
  intros Hk Hb. rewrite lookup_collectFormData.
  cbn in Hk.
  destruct Hk as [<- | [<- | [<- | []]]]; cbn;
    now rewrite (number_field_blank _ _ Hb).
Qed.

(** A numeric field that holds text is part of the payload, with the
    Number [parseFloat] reads from it. *)
Lemma numeric_field_parsed app form k s :
  In k numeric_fields ->
  FormData_get form k = PStr s -> s <> "" ->
  lookup (collectFormData app form) k = Some (PNum (parseFloat s)).
Proof.
  intros Hk E Hs. rewrite lookup_collectFormData.
  cbn in Hk.
  destruct Hk as [<- | [<- | [<- | []]]]; cbn;
    now rewrite (number_field_text _ _ _ E Hs).
Qed.

(** A numeric field is left out of the payload exactly when it is empty
    or absent. *)
Lemma numeric_field_omitted_iff app form k :
  In k numeric_fields ->
  (lookup (collectFormData app form) k = None
   <-> blank (FormData_get form k)).
Proof.
  intros Hk. split.
  - intros Hnone.
    destruct (FormData_get_cases form k) as [E | [s E]]; [now left|].
    destruct (String.eqb s "") eqn:Hs.
    + apply String.eqb_eq in Hs. subst s. now right.
    + apply String.eqb_neq in Hs.
      rewrite (numeric_field_parsed app form k s Hk E Hs) in Hnone.
      discriminate Hnone.
  - now apply numeric_field_blank_omitted.
Qed.

(** C1, as the code has it.  A numeric field holding a non-empty text
    that [parseFloat] does not read as a number stays in the payload of
    [collectFormData], with the value NaN; a numeric field is left out of
    the payload exactly when it is empty or absent. *)
Theorem unparsable_numeric_field_is_kept_as_NaN app form k
  (Hfield : In k numeric_fields) :
  (forall s, FormData_get form k = PStr s -> s <> "" -> parseFloat s = NaN ->
             lookup (collectFormData app form) k = Some (PNum NaN))
  /\ (lookup (collectFormData app form) k = None
      <-> blank (FormData_get form k)).
Proof.
  split.
  - intros s Hvalue Hnonempty Hunparsable.
    rewrite <- Hunparsable. now apply numeric_field_parsed.
  - now apply numeric_field_omitted_iff.
Qed.

Lemma unparsable_numeric_field_is_kept_as_NaN_witness :
  lookup (collectFormData (constructor 1700000000000 "0.4fzyo82mvyr")
            [("segmento", "fitness"); ("preco", "abc")]) "preco"
  = Some (PNum NaN)
  /\ lookup (collectFormData (constructor 1700000000000 "0.4fzyo82mvyr")
               [("segmento", "fitness"); ("preco", "abc")]) "objetivo_receita"
     = None.
Proof.
  split.
  - apply (proj1 (unparsable_numeric_field_is_kept_as_NaN
                    (constructor 1700000000000 "0.4fzyo82mvyr")
                    [("segmento", "fitness"); ("preco", "abc")] "preco"
                    ltac:(cbn; tauto)) "abc").
    + reflexivity.
    + discriminate.
    + reflexivity.
  - apply (proj2 (unparsable_numeric_field_is_kept_as_NaN
                    (constructor 1700000000000 "0.4fzyo82mvyr")
                    [("segmento", "fitness"); ("preco", "abc")]
                    "objetivo_receita" ltac:(cbn; tauto))).
    left. reflexivity.
Defined.

(** The form whose price reads [abc]: the field is a non-empty text,
    [parseFloat] gives NaN, and the payload still has the property
    [preco]; the body sent for it names [preco]. *)
Lemma unparsable_numeric_field_not_omitted :
  let app := constructor 1700000000000 "0.4fzyo82mvyr" in
  let form := [("segmento", "fitness"); ("preco", "abc")] in
  FormData_get form "preco" = PStr "abc"
  /\ parseFloat "abc" = NaN
  /\ lookup (collectFormData app form) "preco" <> None
  /\ stringify (object_of (collectFormData app form))
     = Some (html "{~session_id~:~session_1700000000000_4fzyo82mv~,~segmento~:~fitness~,~preco~:null}").
Proof.
  cbv zeta. repeat split; try reflexivity.
  vm_compute. discriminate.
Qed.

(* ================================================================= *)
(** ** PDF download *)

(** C6.  Without a stored analysis, [downloadPDF] shows the error
    notification and stops: the state is unchanged and no request goes to
    /api/generate_pdf. *)
Theorem downloadPDF_without_analysis isoNow answer w
  (Hnone : currentAnalysis (this w) = null) :
  downloadPDF isoNow answer w
  = (Normal tt, w,
     [ShowNotification "Nenhuma análise disponível para download." "error"])
  /\ requests_to "/api/generate_pdf" (events_of (downloadPDF isoNow answer w)) = []
  /\ notifications "error" (events_of (downloadPDF isoNow answer w))
     = ["Nenhuma análise disponível para download."].
Proof.
  assert (downloadPDF isoNow answer w
          = (Normal tt, w,
             [ShowNotification "Nenhuma análise disponível para download."
                "error"])) as E.
  { unfold downloadPDF, bind, get_this. cbv beta iota.
    rewrite Hnone. reflexivity. }
  rewrite E. repeat split; reflexivity.
Qed.

Lemma downloadPDF_without_analysis_witness :
  let w := {| this := constructor 1700000000000 "0.4fzyo82mvyr";
              page := {| analysisForm := true;
                         uploadedFilesContainer := Some "";
                         resultsSection := Some "none";
                         resultsContent := true |} |} in
  requests_to "/api/generate_pdf"
    (events_of (downloadPDF "2026-01-15T10:00:00.000Z"
                  (Responded true (inr tt)) w)) = [].
Proof.
  intros w.
  apply (downloadPDF_without_analysis "2026-01-15T10:00:00.000Z"
           (Responded true (inr tt)) w).
  reflexivity.
Defined.

(* ================================================================= *)
(** ** File sizes *)

(** [floor_log_1024] is the integer logarithm in base 1024. *)
Lemma floor_log_1024_spec bytes :
  (0 < bytes)%N ->
  (1024 ^ N.of_nat (floor_log_1024 bytes) <= bytes
   < 1024 ^ (N.of_nat (floor_log_1024 bytes) + 1))%N.
Proof.
  intros Hpos. unfold floor_log_1024. rewrite N2Nat.id.
  destruct (N.log2_spec bytes Hpos) as [Hlo Hhi].
  set (l := N.log2 bytes) in *. clearbody l.
  change 1024%N with (2 ^ 10)%N. rewrite <- !N.pow_mul_r.
  assert (10 * (l / 10) <= l)%N as Hdown by apply N.Div0.mul_div_le.
  assert (l < 10 * N.succ (l / 10))%N as Hup
      by (apply N.mul_succ_div_gt; discriminate).
  split.
  - etransitivity; [|exact Hlo].
    apply N.pow_le_mono_r; [discriminate | exact Hdown].
  - eapply N.lt_le_trans; [exact Hhi|].
    apply N.pow_le_mono_r; [discriminate | lia].
Qed.

(** C9.  A file of 2048 bytes is displayed as 2 KB: the logarithm gives
    the unit of index 1, the quotient 2048 / 1024 prints as 2.00 with two
    decimals, [parseFloat] reads it back as 2, and the text is 2 KB. *)
Theorem formatFileSize_2048 :
  floor_log_1024 2048 = 1%nat
  /\ toFixed (inject_Z 2048 / inject_Z (1024 ^ 1))%Q 2 = "2.00"
  /\ primToString (PNum (parseFloat "2.00")) = "2"
  /\ formatFileSize 2048 = "2 KB".
Proof.
  split; [reflexivity|].
  split; [vm_compute; reflexivity|].
  split; [vm_compute; reflexivity|].
  unfold formatFileSize. vm_compute. reflexivity.
Qed.

(* ================================================================= *)
(** ** The upload list *)

(** Runs the monad operations of a method down to its state and events. *)
Ltac run_method :=
  cbv beta iota delta
    [bind ret throw try_catch emit await fetch get_this get_page put_this
     put_page set_uploadedFiles set_container set_sessionId set_currentAnalysis
     set_resultsSection push showError showSuccess showLoading hideLoading
     fst snd this page].

Lemma updateUploadedFilesList_this w :
  exists p, updateUploadedFilesList w
            = (Normal tt, {| this := this w; page := p |}, []).
Proof.
  destruct w as [a p]. unfold updateUploadedFilesList. run_method.
  destruct (uploadedFilesContainer p).
  - destruct (length (uploadedFiles a) =? 0)%nat; eexists; reflexivity.
  - eexists; reflexivity.
Qed.

Ltac run_update :=
  match goal with
  | |- context [updateUploadedFilesList ?w1] =>
      let p := fresh "p" in
      let E := fresh "E" in
      destruct (updateUploadedFilesList_this w1) as [p E]; rewrite E
  end.

Lemma uploadFile_success file now ok result w :
  truthy (success result) = true ->
  this (world_of (uploadFile file now (Responded ok (inr result)) w))
  = {| sessionId := sessionId (this w);
       uploadedFiles := uploadedFiles (this w) ++ [new_descriptor file result now];
       currentAnalysis := currentAnalysis (this w) |}.
Proof.
  intros Hs. unfold uploadFile. run_method.
  rewrite Hs. cbv beta iota. run_update. reflexivity.
Qed.

Lemma removeFile_this fileId w :
  this (world_of (removeFile fileId w))
  = {| sessionId := sessionId (this w);
       uploadedFiles :=
         filter (fun file => negb (strict_equals (id file) fileId))
           (uploadedFiles (this w));
       currentAnalysis := currentAnalysis (this w) |}.
Proof.
  unfold removeFile. run_method. run_update. reflexivity.
Qed.

Lemma number_eqb_refl m e : number_eqb (Dec m e) (Dec m e) = true.
Proof. cbn. apply Z.eqb_refl. Qed.

(** The id of a new descriptor is truthy or a time value: it is never
    NaN, so it is strictly equal to itself. *)
Lemma descriptor_id_refl result now :
  strict_equals (descriptor_id result now) (descriptor_id result now) = true.
Proof.
  unfold descriptor_id, or_else, of_N.
  destruct (attachment_id result) as [| |[|]|[|b|[|p|p] e]|s];
    cbn [truthy_prim strict_equals];
    try apply number_eqb_refl.
  - reflexivity.
  - now destruct b.
  - destruct (String.eqb s "") eqn:E; cbn [negb strict_equals].
    + apply number_eqb_refl.
    + apply String.eqb_refl.
Qed.

(** C10.  An upload that fails (the request throws, the answer does not
    parse, or its success flag is falsy) changes neither the upload list
    nor anything else of the state, and is reported by one error
    notification. *)
Theorem failed_upload_leaves_the_list file now answer w
  (Hfailed : upload_failed answer) :
  uploadedFiles (this (world_of (uploadFile file now answer w)))
  = uploadedFiles (this w)
  /\ world_of (uploadFile file now answer w) = w
  /\ length (notifications "error" (events_of (uploadFile file now answer w))) = 1
  /\ notifications "success" (events_of (uploadFile file now answer w)) = [].
Proof.
  assert (world_of (uploadFile file now answer w) = w
          /\ length (notifications "error"
                       (events_of (uploadFile file now answer w))) = 1
          /\ notifications "success"
               (events_of (uploadFile file now answer w)) = []) as [E H].
  { destruct w as [a p].
    destruct answer as [msg | ok [msg | result]]; cbn in Hfailed.
    - repeat split; reflexivity.
    - repeat split; reflexivity.
    - unfold uploadFile. run_method. rewrite Hfailed.
      repeat split; reflexivity. }
  rewrite E. tauto.
Qed.

Lemma failed_upload_leaves_the_list_witness :
  let d := {| name := "plano.pdf"; size := 2048;
              type := Prim (PStr "pdf"); id := PStr "att-1" |} in
  let w := {| this := {| sessionId := generateSessionId 1700000000000 "0.4fzyo82mvyr";
                         uploadedFiles := [d];
                         currentAnalysis := null |};
              page := {| analysisForm := true;
                         uploadedFilesContainer := Some "";
                         resultsSection := Some "none";
                         resultsContent := true |} |} in
  let answer := Responded true
                  (inr {| success := Prim (PBool false);
                          content_type := undefined;
                          attachment_id := PUndefined;
                          error := Prim (PStr "tipo não suportado") |}) in
  uploadedFiles
    (this (world_of (uploadFile {| File.name := "x.exe"; File.size := 10 |}
                       1700000000001 answer w)))
  = [d].
Proof.
  intros d w answer.
  apply (failed_upload_leaves_the_list
           {| File.name := "x.exe"; File.size := 10 |} 1700000000001 answer w).
  reflexivity.
Defined.

(** The remove button of a list item calls [removeFile] with the id
    written as a string: a descriptor whose id is a Number, as the one
    taken from the clock is, stays in the list. *)
Lemma removeFile_by_text_keeps_a_numeric_id w f n :
  In f (uploadedFiles (this w)) -> id f = PNum n ->
  In f (uploadedFiles
          (this (world_of (removeFile (PStr (primToString (id f))) w)))).
Proof.
  intros Hin Hid. rewrite removeFile_this. cbn [uploadedFiles].
  apply filter_In. split; [assumption|]. now rewrite Hid.
Qed.

(** C2, as the code has it.  When no descriptor of the list has an id
    strictly equal to the one the new descriptor gets, a successful
    upload appends that descriptor, and [removeFile] called with its id
    gives back the list as it was, in the same order. *)
Theorem upload_then_remove_restores_the_list file now ok result w
  (Hsuccess : truthy (success result) = true)
  (Hfresh : forall f, In f (uploadedFiles (this w)) ->
                      strict_equals (id f) (descriptor_id result now) = false) :
  let w1 := world_of (uploadFile file now (Responded ok (inr result)) w) in
  let w2 := world_of (removeFile (descriptor_id result now) w1) in
  uploadedFiles (this w1)
  = (uploadedFiles (this w) ++ [new_descriptor file result now])%list
  /\ uploadedFiles (this w2) = uploadedFiles (this w)
  /\ same_files (uploadedFiles (this w2)) (uploadedFiles (this w)).
Proof.
  intros w1 w2.
  assert (uploadedFiles (this w1)
          = (uploadedFiles (this w) ++ [new_descriptor file result now])%list) as E1.
  { unfold w1. now rewrite uploadFile_success. }
  assert (uploadedFiles (this w2) = uploadedFiles (this w)) as E2.
  { unfold w2. rewrite removeFile_this. cbn [uploadedFiles].
    rewrite E1, filter_app. cbn [filter id new_descriptor].
    rewrite descriptor_id_refl. cbn [negb].
    rewrite app_nil_r. apply filter_all.
    intros f Hin. now rewrite (Hfresh f Hin). }
  repeat split; try assumption; rewrite E2; auto.
Qed.

Lemma upload_then_remove_restores_the_list_witness :
  let d := {| name := "plano.pdf"; size := 2048;
              type := Prim (PStr "pdf"); id := PStr "att-1" |} in
  let w := {| this := {| sessionId := generateSessionId 1700000000000 "0.4fzyo82mvyr";
                         uploadedFiles := [d];
                         currentAnalysis := null |};
              page := {| analysisForm := true;
                         uploadedFilesContainer := Some "";
                         resultsSection := Some "none";
                         resultsContent := true |} |} in
  let result := {| success := Prim (PBool true);
                   content_type := Prim (PStr "text");
                   attachment_id := PStr "att-2";
                   error := undefined |} in
  let w1 := world_of (uploadFile {| File.name := "notas.txt"; File.size := 10 |}
                        1700000000001 (Responded true (inr result)) w) in
  uploadedFiles (this (world_of (removeFile (PStr "att-2") w1))) = [d].
Proof.
  intros d w result w1.
  refine (proj1 (proj2 (upload_then_remove_restores_the_list
                          {| File.name := "notas.txt"; File.size := 10 |}
                          1700000000001 true result w _ _))).
  - reflexivity.
  - intros f [<- | []]. reflexivity.
Defined.

(** An upload whose id is already the id of a descriptor of the list:
    removing by that id takes both descriptors away, and the list is not
    the one before the upload. *)
Lemma upload_then_remove_drops_an_older_file :
  let d := {| name := "plano.pdf"; size := 2048;
              type := Prim (PStr "pdf"); id := PStr "att-1" |} in
  let w := {| this := {| sessionId := generateSessionId 1700000000000 "0.4fzyo82mvyr";
                         uploadedFiles := [d];
                         currentAnalysis := null |};
              page := {| analysisForm := true;
                         uploadedFilesContainer := Some "";
                         resultsSection := Some "none";
                         resultsContent := true |} |} in
  let result := {| success := Prim (PBool true);
                   content_type := Prim (PStr "text");
                   attachment_id := PStr "att-1";
                   error := undefined |} in
  let w1 := world_of (uploadFile {| File.name := "notas.txt"; File.size := 10 |}
                        1700000000001 (Responded true (inr result)) w) in
  let w2 := world_of (removeFile (descriptor_id result 1700000000001) w1) in
  In d (uploadedFiles (this w))
  /\ uploadedFiles (this w2) = []
  /\ (same_files (uploadedFiles (this w2)) (uploadedFiles (this w)) -> False).
Proof.
  intros d w result w1 w2.
  split; [now left|]. split; [reflexivity|].
  intros H. exact (proj2 (H d) (or_introl eq_refl)).
Qed.

(* ================================================================= *)
(** ** New analysis *)

Lemma uint_digits d : only_digits (NilEmpty.string_of_uint d).
Proof. induction d; cbn; auto. Qed.

Lemma digits_only n : only_digits (digits n).
Proof.
  unfold digits, NilZero.string_of_uint.
  destruct (N.to_uint n) eqn:E; try (rewrite <- E; apply uint_digits).
  cbn. auto.
Qed.

Lemma to_uint_nonnil n : N.to_uint n <> Decimal.Nil.
Proof.
  destruct n as [|p]; [discriminate|].
  apply DecimalPos.Unsigned.to_uint_nonnil.
Qed.

Lemma digits_inj n n' : digits n = digits n' -> n = n'.
Proof.
  unfold digits. intros E.
  apply DecimalN.Unsigned.to_uint_inj.
  apply (f_equal NilZero.uint_of_string) in E.
  rewrite !NilZero.usu in E by apply to_uint_nonnil.
  now injection E.
Qed.

Lemma split_at_underscore a b s s' :
  only_digits a -> only_digits b ->
  a ++ "_" ++ s = b ++ "_" ++ s' -> a = b /\ s = s'.
Proof.
  revert b. induction a as [|c a IH]; intros [|c' b] Ha Hb E; cbn in *.
  - injection E as ->. auto.
  - injection E as <- _. destruct Hb as [Hb _]. discriminate Hb.
  - injection E as -> _. destruct Ha as [Ha _]. discriminate Ha.
  - injection E as -> E. destruct Ha as [_ Ha], Hb as [_ Hb].
    destruct (IH b Ha Hb E) as [-> ->]. auto.
Qed.

Lemma generateSessionId_inj now r now' r' :
  generateSessionId now r = generateSessionId now' r' ->
  now = now' /\ substring 2 9 r = substring 2 9 r'.
Proof.
  unfold generateSessionId. cbn [append]. intros E.
  repeat (injection E as E).
  apply split_at_underscore in E as [E1 E2]; try apply digits_only.
  split; [now apply digits_inj | assumption].
Qed.

Lemma startNewAnalysis_world now r w :
  world_of (startNewAnalysis now r w)
  = {| this := {| sessionId := generateSessionId now r;
                  uploadedFiles := [];
                  currentAnalysis := null |};
       page := reset_page (page w) |}.
Proof.
  destruct w as [a [f c d rc]].
  unfold startNewAnalysis, updateUploadedFilesList. run_method.
  destruct f, c, d; reflexivity.
Qed.

Lemma reset_page_hidden p : results_hidden (reset_page p).
Proof. unfold results_hidden, reset_page; cbn. now destruct (resultsSection p). Qed.

Lemma reset_page_idem p : reset_page (reset_page p) = reset_page p.
Proof.
  unfold reset_page; cbn.
  now destruct (uploadedFilesContainer p), (resultsSection p).
Qed.

(** C4, as the code has it.  Two calls of [startNewAnalysis] in a row
    leave the same empty state after each: no uploaded file, no current
    analysis, results hidden, the same page.  Each call sets the id made
    from its clock reading and its random text; the two ids differ
    whenever the clock readings differ or the random suffixes kept
    differ, and they are the same id otherwise. *)
Theorem startNewAnalysis_twice now1 r1 now2 r2 w :
  let w1 := world_of (startNewAnalysis now1 r1 w) in
  let w2 := world_of (startNewAnalysis now2 r2 w1) in
  (uploadedFiles (this w1) = [] /\ currentAnalysis (this w1) = null
   /\ results_hidden (page w1))
  /\ (uploadedFiles (this w2) = [] /\ currentAnalysis (this w2) = null
      /\ results_hidden (page w2))
  /\ page w2 = page w1
  /\ sessionId (this w1) = generateSessionId now1 r1
  /\ sessionId (this w2) = generateSessionId now2 r2
  /\ (now1 <> now2 \/ substring 2 9 r1 <> substring 2 9 r2 ->
      sessionId (this w1) <> sessionId (this w2))
  /\ (now1 = now2 /\ substring 2 9 r1 = substring 2 9 r2 ->
      sessionId (this w1) = sessionId (this w2)).
Proof.
  intros w1 w2. unfold w2, w1. rewrite !startNewAnalysis_world.
  cbn [this page uploadedFiles currentAnalysis sessionId].
  rewrite reset_page_idem.
  repeat split; try apply reset_page_hidden.
  - intros Hdiffer E. apply generateSessionId_inj in E as [E1 E2].
    destruct Hdiffer as [H | H]; now apply H.
  - intros [-> E]. unfold generateSessionId. now rewrite E.
Qed.

Lemma startNewAnalysis_twice_witness :
  let w := {| this := constructor 1700000000000 "0.4fzyo82mvyr";
              page := {| analysisForm := true;
                         uploadedFilesContainer := Some "";
                         resultsSection := Some "block";
                         resultsContent := true |} |} in
  let w1 := world_of (startNewAnalysis 1700000000001 "0.k3j9x0q2lmna" w) in
  let w2 := world_of (startNewAnalysis 1700000000002 "0.k3j9x0q2lmna" w1) in
  page w2 = page w1
  /\ sessionId (this w1) <> sessionId (this w2).
Proof.
  intros w w1 w2.
  pose proof (startNewAnalysis_twice 1700000000001 "0.k3j9x0q2lmna"
                1700000000002 "0.k3j9x0q2lmna" w) as H.
  cbv zeta in H. destruct H as [_ [_ [Hpage [_ [_ [Hdiffer _]]]]]].
  split; [exact Hpage|].
  apply Hdiffer. left. discriminate.
Defined.

(** Two calls within one millisecond whose random texts agree on the
    nine characters kept: the first differs from the second further on,
    and the two session ids are the same. *)
Lemma startNewAnalysis_twice_same_id :
  let w := {| this := constructor 1700000000000 "0.4fzyo82mvyr";
              page := {| analysisForm := true;
                         uploadedFilesContainer := Some "";
                         resultsSection := Some "block";
                         resultsContent := true |} |} in
  let w1 := world_of (startNewAnalysis 1700000000001 "0.k3j9x0q2lmna" w) in
  let w2 := world_of (startNewAnalysis 1700000000001 "0.k3j9x0q2lzzz" w1) in
  sessionId (this w1) = sessionId (this w2)
  /\ sessionId (this w1) = "session_1700000000001_k3j9x0q2l".
Proof. split; reflexivity. Qed.

(* ================================================================= *)
(** ** Results rendering *)

Lemma append_nil_r (a : string) : a ++ "" = a.
Proof. induction a as [|x a IH]; cbn; [reflexivity | now rewrite IH]. Qed.

Lemma map_index_length {A B} (f : A -> nat -> B) l i :
  length (map_index f l i) = length l.
Proof.
  revert i. induction l as [|x l IH]; intros i; cbn; [reflexivity|].
  now rewrite IH.
Qed.

Lemma map_index_nth_error {A B} (f : A -> nat -> B) l i k x :
  nth_error l k = Some x ->
  nth_error (map_index f l i) k = Some (f x (i + k)).
Proof.
  revert i k. induction l as [|y l IH]; intros i [|k] H; cbn in *;
    try discriminate.
  - injection H as ->. now rewrite Nat.add_0_r.
  - rewrite (IH (S i) k H). now rewrite Nat.add_succ_r.
Qed.

(** C8.  The insights section is its fixed opening, one card per insight
    and its fixed closing; the cards come in the order of the list and
    the card of the insight at position [k] (from 0) bears the number
    [k + 1].  The list A, B gives the card numbered 1 for A, then the
    card numbered 2 for B. *)
Theorem insights_are_numbered_cards :
  (forall insights, exists cards,
      buildInsightsSection insights
      = insights_open ++ join "" cards ++ insights_close
      /\ length cards = length insights
      /\ forall k insight,
          nth_error insights k = Some insight ->
          nth_error cards k
          = Some (card_open ++ digits (N.of_nat (k + 1)) ++ card_middle
                  ++ toString insight ++ card_close))
  /\ buildInsightsSection [Prim (PStr "A"); Prim (PStr "B")]
     = insights_open
       ++ (card_open ++ "1" ++ card_middle ++ "A" ++ card_close)
       ++ (card_open ++ "2" ++ card_middle ++ "B" ++ card_close)
       ++ insights_close.
Proof.
  split.
  - intros insights. exists (map_index insight_card insights 0).
    split; [reflexivity|]. split; [apply map_index_length|].
    intros k insight H.
    now rewrite (map_index_nth_error insight_card insights 0 k insight H).
  - vm_compute. reflexivity.
Qed.

Lemma block_map {A} (wrap : list string -> string) (f : A -> string) l :
  block wrap (map f l) = if (0 <? length l)%nat then wrap (map f l) else "".
Proof. now destruct l. Qed.

Lemma firstn_nth_error {A} n (l : list A) k :
  (k < n)%nat -> nth_error (firstn n l) k = nth_error l k.
Proof.
  revert l k. induction n as [|n IH]; intros l k H; [lia|].
  destruct l as [|x l]; [reflexivity|].
  destruct k as [|k]; [reflexivity|].
  cbn. apply IH. lia.
Qed.

(** C7.  The marketing section is its fixed opening, the block of the
    primary keywords, the block of the secondary keywords and its fixed
    closing, each block being its opening, the tags joined and its
    closing.  The primary block holds one tag per primary keyword, in
    order.  The secondary block holds one tag for each of the first 10
    secondary keywords, in order: all of them when there are at most 10.
    A block without tag is left out.  Three secondary keywords after two
    primary ones give two tags, then three. *)
Theorem marketing_keyword_tags :
  (forall marketing,
      let primary := list_of (palavras_primarias marketing) in
      let secondary := list_of (palavras_secundarias marketing) in
      exists tags secondary_tags,
        buildMarketingSection marketing
        = marketing_open
          ++ match tags with
             | [] => ""
             | _ => primary_open ++ join "" tags ++ primary_close
             end
          ++ match secondary_tags with
             | [] => ""
             | _ => secondary_open ++ join "" secondary_tags ++ secondary_close
             end
          ++ marketing_close
        /\ length tags = length primary
        /\ (forall k keyword,
              nth_error primary k = Some keyword ->
              nth_error tags k
              = Some (tag_open ++ toString keyword ++ tag_close))
        /\ length secondary_tags = Nat.min 10 (length secondary)
        /\ (forall k keyword,
              (k < 10)%nat -> nth_error secondary k = Some keyword ->
              nth_error secondary_tags k
              = Some (secondary_tag_open ++ toString keyword
                      ++ secondary_tag_close))
        /\ ((length secondary <= 10)%nat ->
            length secondary_tags = length secondary))
  /\ buildMarketingSection
       {| palavras_primarias := Some [Prim (PStr "a"); Prim (PStr "b")];
          palavras_secundarias :=
            Some [Prim (PStr "c"); Prim (PStr "d"); Prim (PStr "e")] |}
     = marketing_open
       ++ primary_open
       ++ (tag_open ++ "a" ++ tag_close)
       ++ (tag_open ++ "b" ++ tag_close)
       ++ primary_close
       ++ secondary_open
       ++ (secondary_tag_open ++ "c" ++ secondary_tag_close)
       ++ (secondary_tag_open ++ "d" ++ secondary_tag_close)
       ++ (secondary_tag_open ++ "e" ++ secondary_tag_close)
       ++ secondary_close
       ++ marketing_close.
Proof.
  split; [|vm_compute; reflexivity].
  intros marketing primary secondary.
  exists (map keyword_tag primary),
         (map keyword_tag_secondary (slice0 10 secondary)).
  split.
  - change (match map keyword_tag primary with
            | [] => ""
            | _ => primary_open ++ join "" (map keyword_tag primary)
                   ++ primary_close
            end)
      with (block primary_block (map keyword_tag primary)).
    change (match map keyword_tag_secondary (slice0 10 secondary) with
            | [] => ""
            | _ => secondary_open
                   ++ join "" (map keyword_tag_secondary (slice0 10 secondary))
                   ++ secondary_close
            end)
      with (block secondary_block
              (map keyword_tag_secondary (slice0 10 secondary))).
    unfold buildMarketingSection, primary, secondary, list_of.
    destruct (palavras_primarias marketing) as [p|],
             (palavras_secundarias marketing) as [s|];
      rewrite ?block_map.
    + destruct (0 <? length p)%nat.
      * assert ((0 <? length (slice0 10 s)) = (0 <? length s))%nat as ->
            by now destruct s.
        destruct (0 <? length s)%nat; now rewrite ?append_assoc.
      * assert ((0 <? length (slice0 10 s)) = (0 <? length s))%nat as ->
            by now destruct s.
        destruct (0 <? length s)%nat; now rewrite ?append_assoc.
    + destruct (0 <? length p)%nat; now rewrite ?append_assoc.
    + assert ((0 <? length (slice0 10 s)) = (0 <? length s))%nat as ->
          by now destruct s.
      destruct (0 <? length s)%nat; now rewrite ?append_assoc.
    + reflexivity.
  - split; [apply length_map|].
    split.
    { intros k keyword H. now rewrite nth_error_map, H. }
    split.
    { unfold slice0. now rewrite length_map, length_firstn. }
    split.
    { intros k keyword Hk H. unfold slice0.
      now rewrite nth_error_map, firstn_nth_error, H. }
    intros Hle. unfold slice0. rewrite length_map, length_firstn. lia.
Qed.

(** Twelve secondary keywords give ten tags, the first ten. *)
Example twelve_secondary_keywords :
  let word n := Prim (PStr (digits n)) in
  let l := map word [1; 2; 3; 4; 5; 6; 7; 8; 9; 10; 11; 12]%N in
  buildMarketingSection
    {| palavras_primarias := Some [word 0%N]; palavras_secundarias := Some l |}
  = marketing_open
    ++ primary_block [keyword_tag (word 0%N)]
    ++ secondary_block
         (map keyword_tag_secondary
            (map word [1; 2; 3; 4; 5; 6; 7; 8; 9; 10]%N))
    ++ marketing_close.
Proof. vm_compute. reflexivity. Qed.


(* ================================================================= *)
(** ** Further properties of the form and of the analysis request *)

(** X1.  The payload of [collectFormData] is the object of the eleven
    collected properties without those whose value is the empty string or
    null, in the order of the source: no property of the payload holds
    the empty string or null, and each one is a collected property with
    its value. *)
Theorem payload_has_no_empty_value app form :
  collectFormData app form
  = filter (fun kv => negb (is_empty (snd kv))) (collected app form)
  /\ (forall k v, In (k, v) (collectFormData app form) ->
                  v <> PStr "" /\ v <> PNull /\ In (k, v) (collected app form)).
Proof.
  split; [apply collectFormData_filter|].
  intros k v Hin. rewrite collectFormData_filter in Hin.
  apply filter_In in Hin as [Hin Hne]. cbn in Hne.
  apply negb_true_iff in Hne.
  repeat split; try assumption; intros ->; discriminate Hne.
Qed.

Lemma lookup_collected_text app form k :
  In k text_fields ->
  lookup (collected app form) k = Some (FormData_get form k).
Proof.
  cbn. intros H.
  repeat (destruct H as [<- | H]; [reflexivity|]). contradiction.
Qed.

Lemma lookup_collected_number app form k :
  In k numeric_fields ->
  lookup (collected app form) k = Some (number_field form k).
Proof.
  cbn. intros H.
  repeat (destruct H as [<- | H]; [reflexivity|]). contradiction.
Qed.

(** X2.  A field of the form that is empty or absent, text or numeric,
    is no property of the payload. *)
Theorem blank_field_is_omitted app form k
  (Hfield : In k text_fields \/ In k numeric_fields)
  (Hblank : blank (FormData_get form k)) :
  lookup (collectFormData app form) k = None.
Proof.
  rewrite lookup_collectFormData.
  destruct Hfield as [H | H].
  - rewrite (lookup_collected_text _ _ _ H). cbn.
    now rewrite (blank_is_empty _ Hblank).
  - rewrite (lookup_collected_number _ _ _ H).
    now rewrite (number_field_blank _ _ Hblank).
Qed.

Lemma blank_field_is_omitted_witness :
  lookup (collectFormData (constructor 1700000000000 "0.4fzyo82mvyr")
            [("segmento", "fitness"); ("produto", "")]) "produto" = None
  /\ lookup (collectFormData (constructor 1700000000000 "0.4fzyo82mvyr")
               [("segmento", "fitness"); ("produto", "")]) "preco" = None.
Proof.
  split.
  - apply blank_field_is_omitted; [left; cbn; tauto | right; reflexivity].
  - apply blank_field_is_omitted; [right; cbn; tauto | left; reflexivity].
Defined.

Lemma digits_value_uint d d' :
  fold_left (fun acc c => 10 * acc + digit_value c)%Z
    (list_ascii_of_string (NilEmpty.string_of_uint d))
    (Z.of_N (DecimalPos.Unsigned.of_lu d'))
  = Z.of_N (DecimalPos.Unsigned.of_lu (Decimal.revapp d d')).
Proof.
  revert d'. induction d; intros d'; cbn [NilEmpty.string_of_uint
    list_ascii_of_string fold_left Decimal.revapp]; [reflexivity|..];
    rewrite <- IHd; f_equal; cbn [DecimalPos.Unsigned.of_lu];
    match goal with
    | |- context [digit_value ?c] =>
        let v := eval vm_compute in (digit_value c) in
        change (digit_value c) with v
    end; lia.
Qed.

Lemma digits_value_digits n :
  digits_value (list_ascii_of_string (digits n)) = Z.of_N n.
Proof.
  unfold digits, NilZero.string_of_uint, digits_value.
  rewrite <- (DecimalN.Unsigned.of_to n) at 2.
  destruct (N.to_uint n) eqn:E;
    try (rewrite <- E; change 0%Z with (Z.of_N (DecimalPos.Unsigned.of_lu Decimal.Nil));
         rewrite digits_value_uint; unfold N.of_uint;
         now rewrite DecimalPos.Unsigned.of_uint_alt).
  reflexivity.
Qed.

Lemma digit_cases c :
  is_digit c = true ->
  In c ["0"; "1"; "2"; "3"; "4"; "5"; "6"; "7"; "8"; "9"]%char.
Proof.
  intros H. destruct c as [[] [] [] [] [] [] [] []];
    vm_compute in H; try discriminate H; cbn; auto 12.
Qed.

Lemma trimStart_digit c l : is_digit c = true -> trimStart (c :: l) = c :: l.
Proof.
  intros H. apply digit_cases in H. cbn in H.
  repeat (destruct H as [<- | H];
          [destruct l as [|b [|d l]]; reflexivity|]).
  contradiction.
Qed.

Lemma take_sign_digit c l :
  is_digit c = true -> take_sign (c :: l) = (false, c :: l).
Proof.
  intros H. apply digit_cases in H. cbn in H.
  repeat (destruct H as [<- | H]; [reflexivity|]). contradiction.
Qed.

Lemma starts_with_Infinity_digit c l :
  is_digit c = true ->
  starts_with (list_ascii_of_string "Infinity") (c :: l) = false.
Proof.
  intros H. apply digit_cases in H. cbn in H.
  repeat (destruct H as [<- | H]; [reflexivity|]). contradiction.
Qed.

Lemma span_digits_all s :
  only_digits s ->
  span_digits (list_ascii_of_string s) = (list_ascii_of_string s, []).
Proof.
  induction s as [|c s IH]; cbn; [reflexivity|].
  intros [Hc Hs]. now rewrite Hc, (IH Hs).
Qed.

(** [parseFloat] reads the digits of a natural number as that number. *)
Lemma parseFloat_digits n : parseFloat (digits n) = of_N n.
Proof.
  pose proof (digits_only n) as Hd.
  pose proof (digits_value_digits n) as Hv.
  unfold parseFloat, of_N.
  destruct (digits n) as [|c s] eqn:E.
  - exfalso. unfold digits, NilZero.string_of_uint in E.
    destruct (N.to_uint n); discriminate E.
  - destruct Hd as [Hc Hs].
    cbn [list_ascii_of_string].
    rewrite (trimStart_digit _ _ Hc), (take_sign_digit _ _ Hc).
    rewrite (starts_with_Infinity_digit _ _ Hc).
    change (c :: list_ascii_of_string s)
      with (list_ascii_of_string (String c s)).
    rewrite (span_digits_all (String c s) (conj Hc Hs)).
    rewrite app_nil_r. cbn [list_ascii_of_string] in *.
    cbn [exponent length signed]. now rewrite Hv.
Qed.

(** X3.  A field that holds a non-empty text is a property of the
    payload: a text field with the text as it is (no trimming), a numeric
    field with a Number, which is NaN exactly when [parseFloat] reads no
    number from the text.  A numeric field whose text is the digits of an
    integer below 2^53 is sent as that integer, zero included. *)
Theorem filled_field_is_sent app form k s
  (Hvalue : FormData_get form k = PStr s)
  (Hnonempty : s <> "") :
  (In k text_fields -> lookup (collectFormData app form) k = Some (PStr s))
  /\ (In k numeric_fields ->
      exists n, lookup (collectFormData app form) k = Some (PNum n)
                /\ (n = NaN <-> parseFloat s = NaN))
  /\ (In k numeric_fields ->
      forall m, (m < 2 ^ 53)%N -> s = digits m ->
                lookup (collectFormData app form) k = Some (PNum (of_N m))).
Proof.
  split; [|split]; intros H.
  - rewrite lookup_collectFormData.
    rewrite (lookup_collected_text _ _ _ H), Hvalue. cbn.
    now rewrite (is_empty_nonempty _ Hnonempty).
  - exists (parseFloat s). split; [|tauto].
    now apply numeric_field_parsed.
  - intros m _ ->. rewrite <- parseFloat_digits.
    now apply numeric_field_parsed.
Qed.

Lemma filled_field_is_sent_witness :
  let app := constructor 1700000000000 "0.4fzyo82mvyr" in
  let form := [("segmento", "  fitness "); ("preco", "0");
               ("objetivo_receita", "12500")] in
  lookup (collectFormData app form) "segmento" = Some (PStr "  fitness ")
  /\ lookup (collectFormData app form) "preco" = Some (PNum (of_N 0))
  /\ lookup (collectFormData app form) "objetivo_receita"
     = Some (PNum (of_N 12500)).
Proof.
  intros app form. split; [|split].
  - apply (proj1 (filled_field_is_sent app form "segmento" "  fitness "
                    eq_refl ltac:(discriminate))).
    cbn. tauto.
  - apply (proj2 (proj2 (filled_field_is_sent app form "preco" "0"
                           eq_refl ltac:(discriminate)))
             ltac:(cbn; tauto) 0%N eq_refl eq_refl).
  - apply (proj2 (proj2 (filled_field_is_sent app form "objetivo_receita"
                           "12500" eq_refl ltac:(discriminate)))
             ltac:(cbn; tauto) 12500%N eq_refl eq_refl).
Defined.

Lemma performAnalysis_failure data answer w message :
  analysis_error answer = Some message ->
  performAnalysis data answer w
  = (Normal tt, w,
     [ShowLoading;
      Fetch "/api/analyze" (analyze_request data);
      ConsoleError "Erro na análise:" message;
      HideLoading;
      ShowNotification ("Erro ao realizar análise: " ++ message) "error"]).
Proof.
  intros Hfailed. destruct w as [a p].
  destruct answer as [msg | ok [msg | v]]; unfold analysis_error in Hfailed.
  - injection Hfailed as <-. reflexivity.
  - destruct ok; injection Hfailed as <-; reflexivity.
  - destruct ok; [discriminate|].
    unfold performAnalysis. run_method.
    destruct (get v "message") as [m | m]; injection Hfailed as <-; reflexivity.
Qed.

(** X4.  An analysis that fails, because the request rejects, the body
    does not parse, or the status is not a success, leaves the state as
    it was, and the calls the method makes are these, in this order: the
    loading overlay shown, the request, the error logged, the overlay
    hidden, one error notification with the message of the error. *)
Theorem failed_analysis_changes_nothing data answer w message
  (Hfailed : analysis_error answer = Some message) :
  world_of (performAnalysis data answer w) = w
  /\ events_of (performAnalysis data answer w)
     = [ShowLoading;
        Fetch "/api/analyze" (analyze_request data);
        ConsoleError "Erro na análise:" message;
        HideLoading;
        ShowNotification ("Erro ao realizar análise: " ++ message) "error"].
Proof.
  rewrite (performAnalysis_failure _ _ _ _ Hfailed). split; reflexivity.
Qed.

Lemma failed_analysis_changes_nothing_witness :
  let w := {| this := constructor 1700000000000 "0.4fzyo82mvyr";
              page := {| analysisForm := true;
                         uploadedFilesContainer := Some "";
                         resultsSection := Some "none";
                         resultsContent := true |} |} in
  let answer := Rejected "Failed to fetch" in
  world_of (performAnalysis [] answer w) = w
  /\ events_of (performAnalysis [] answer w)
     = [ShowLoading;
        Fetch "/api/analyze" (analyze_request []);
        ConsoleError "Erro na análise:" "Failed to fetch";
        HideLoading;
        ShowNotification "Erro ao realizar análise: Failed to fetch" "error"].
Proof.
  intros w answer.
  apply (failed_analysis_changes_nothing [] answer w "Failed to fetch" eq_refl).
Defined.

(** X5.  For a status that is not a success whose body is an object, the
    notification carries the message of the body when it has a truthy
    one, and the default text when the message is missing or falsy. *)
Theorem analysis_error_message data props w :
  let shown := notifications "error"
                 (events_of (performAnalysis data
                               (Responded false (inr (Obj props))) w)) in
  (forall m, lookup props "message" = Some m -> truthy m = true ->
             shown = ["Erro ao realizar análise: " ++ toString m])
  /\ (forall m, lookup props "message" = Some m -> truthy m = false ->
                shown = ["Erro ao realizar análise: Erro na análise"])
  /\ (lookup props "message" = None ->
      shown = ["Erro ao realizar análise: Erro na análise"]).
Proof.
  intros shown. unfold shown.
  repeat split; [intros m H Hm | intros m H Hm | intros H];
    erewrite performAnalysis_failure; try reflexivity;
    cbn; rewrite H; try reflexivity;
    unfold or_default; now rewrite Hm.
Qed.

Lemma analysis_error_message_witness :
  let w := {| this := constructor 1700000000000 "0.4fzyo82mvyr";
              page := {| analysisForm := true;
                         uploadedFilesContainer := Some "";
                         resultsSection := Some "none";
                         resultsContent := true |} |} in
  notifications "error"
    (events_of (performAnalysis []
                  (Responded false
                     (inr (Obj [("message", Prim (PStr "Segmento inválido"))])))
                  w))
  = ["Erro ao realizar análise: Segmento inválido"].
Proof.
  intros w.
  apply (proj1 (analysis_error_message []
                  [("message", Prim (PStr "Segmento inválido"))] w)
           (Prim (PStr "Segmento inválido")) eq_refl eq_refl).
Defined.

(** X6.  An answer that is a success stores its result as the current
    analysis, before anything is rendered, and changes neither the
    session id nor the upload list; one request goes out.  On a page that
    lacks one of the two results elements nothing is rendered or
    displayed: the run is the overlay shown, the request, the overlay
    hidden, and the page is as it was. *)
Theorem successful_analysis_is_stored data result w :
  let r := performAnalysis data (Responded true (inr result)) w in
  let stored := {| sessionId := sessionId (this w);
                   uploadedFiles := uploadedFiles (this w);
                   currentAnalysis := result |} in
  this (world_of r) = stored
  /\ requests_to "/api/analyze" (events_of r) = [analyze_request data]
  /\ (resultsSection (page w) = None \/ resultsContent (page w) = false ->
      r = (Normal tt, {| this := stored; page := page w |},
           [ShowLoading; Fetch "/api/analyze" (analyze_request data);
            HideLoading])).
Proof.
  intros r stored. unfold r, stored.
  split; [|split; [apply performAnalysis_requests|]].
  - destruct w as [a [f c [d|] rc]]; [destruct rc|]; reflexivity.
  - destruct w as [a [f c d rc]]. cbn [page resultsSection resultsContent].
    intros [-> | ->]; [reflexivity|].
    destruct d; reflexivity.
Qed.

Lemma successful_analysis_is_stored_witness :
  let w := {| this := constructor 1700000000000 "0.4fzyo82mvyr";
              page := {| analysisForm := true;
                         uploadedFilesContainer := Some "";
                         resultsSection := None;
                         resultsContent := true |} |} in
  performAnalysis [] (Responded true (inr (Obj []))) w
  = (Normal tt,
     {| this := {| sessionId := sessionId (this w);
                   uploadedFiles := [];
                   currentAnalysis := Obj [] |};
        page := page w |},
     [ShowLoading; Fetch "/api/analyze" (analyze_request []); HideLoading]).
Proof.
  intros w.
  apply (proj2 (proj2 (successful_analysis_is_stored [] (Obj []) w))).
  left. reflexivity.
Defined.

(* ================================================================= *)
(** ** Further properties of the upload list *)

Lemma updateUploadedFilesList_run w :
  updateUploadedFilesList w
  = (Normal tt,
     {| this := this w;
        page := {| analysisForm := analysisForm (page w);
                   uploadedFilesContainer :=
                     match uploadedFilesContainer (page w) with
                     | Some _ =>
                         Some (join "" (map file_item (uploadedFiles (this w))))
                     | None => None
                     end;
                   resultsSection := resultsSection (page w);
                   resultsContent := resultsContent (page w) |} |},
     []).
Proof.
  destruct w as [a [f c d rc]]. unfold updateUploadedFilesList. run_method.
  destruct c as [h|]; [|reflexivity].
  destruct (uploadedFiles a) as [|x l] eqn:E; cbn [length Nat.eqb];
    rewrite ?E; reflexivity.
Qed.

Lemma list_shown_after_update w :
  list_shown (world_of (updateUploadedFilesList w)).
Proof.
  rewrite updateUploadedFilesList_run. unfold list_shown, world_of; cbn.
  now destruct (uploadedFilesContainer (page w)).
Qed.

(** The page whose upload container, if it has one, shows [files]. *)
Lemma shown_page_spec (p : Page) (a : ARQV30App) :
  world_of (updateUploadedFilesList {| this := a; page := p |})
  = {| this := a;
       page := {| analysisForm := analysisForm p;
                  uploadedFilesContainer :=
                    match uploadedFilesContainer p with
                    | Some _ => Some (join "" (map file_item (uploadedFiles a)))
                    | None => None
                    end;
                  resultsSection := resultsSection p;
                  resultsContent := resultsContent p |} |}.
Proof. now rewrite updateUploadedFilesList_run. Qed.

(** What a successful upload does, in full. *)
Lemma uploadFile_success_run file now ok result w :
  truthy (success result) = true ->
  uploadFile file now (Responded ok (inr result)) w
  = (Normal tt,
     world_of (updateUploadedFilesList
                 {| this := {| sessionId := sessionId (this w);
                               uploadedFiles :=
                                 uploadedFiles (this w)
                                 ++ [new_descriptor file result now];
                               currentAnalysis := currentAnalysis (this w) |};
                    page := page w |}),
     [Fetch "/api/upload_attachment" (upload_request file (sessionId (this w)));
      ShowNotification
        (html "Arquivo ~" ++ File.name file ++ html "~ processado com sucesso!")
        "success"]).
Proof.
  intros Hs. rewrite shown_page_spec. destruct w as [a p].
  unfold uploadFile. run_method.
  rewrite Hs. cbv beta iota.
  rewrite updateUploadedFilesList_run. reflexivity.
Qed.

Lemma uploadFile_failure_run file now answer w :
  upload_failed answer ->
  exists message,
    uploadFile file now answer w
    = (Normal tt, w,
       [Fetch "/api/upload_attachment" (upload_request file (sessionId (this w)));
        ConsoleError "Erro no upload:" message;
        ShowNotification
          (html "Erro ao processar ~" ++ File.name file ++ html "~: " ++ message)
          "error"]).
Proof.
  intros Hf. destruct w as [a p].
  destruct answer as [msg | ok [msg | result]]; cbn in Hf.
  - eexists; reflexivity.
  - eexists; reflexivity.
  - unfold uploadFile. run_method. rewrite Hf. eexists; reflexivity.
Qed.

Lemma upload_failed_dec answer :
  upload_failed answer
  \/ exists ok result,
       answer = Responded ok (inr result) /\ truthy (success result) = true.
Proof.
  destruct answer as [msg | ok [msg | result]]; cbn; auto.
  destruct (truthy (success result)) eqn:E; eauto.
Qed.

(** X7.  An upload whose answer has a truthy success flag, whatever its
    HTTP status, appends one descriptor at the end of the list: the name
    and size of the file, the content type of the answer and, as id, the
    attachment id of the answer when it is truthy and the clock reading
    otherwise.  One request goes out, with the file and the session id;
    the page shows the new list; one success notification is called, and
    it names the file.  For a file name without the character [<] these
    are all the calls, and the method returns. *)
Theorem successful_upload_appends_descriptor file now ok result w
  (Hsuccess : truthy (success result) = true) :
  let r := uploadFile file now (Responded ok (inr result)) w in
  this (world_of r)
  = {| sessionId := sessionId (this w);
       uploadedFiles :=
         uploadedFiles (this w)
         ++ [{| name := File.name file;
                size := File.size file;
                type := content_type result;
                id := if truthy_prim (attachment_id result)
                      then attachment_id result
                      else PNum (of_N now) |}];
       currentAnalysis := currentAnalysis (this w) |}
  /\ list_shown (world_of r)
  /\ requests_to "/api/upload_attachment" (events_of r)
     = [upload_request file (sessionId (this w))]
  /\ notifications "success" (events_of r)
     = [html "Arquivo ~" ++ File.name file ++ html "~ processado com sucesso!"]
  /\ (plain (File.name file) ->
      result_of r = Normal tt
      /\ events_of r
         = [Fetch "/api/upload_attachment"
              (upload_request file (sessionId (this w)));
            ShowNotification
              (html "Arquivo ~" ++ File.name file
               ++ html "~ processado com sucesso!")
              "success"]).
Proof.
  intros r. unfold r. rewrite (uploadFile_success_run _ _ _ _ _ Hsuccess).
  split; [|split; [|split; [|split]]].
  - unfold world_of at 1. cbn [fst snd].
    now rewrite updateUploadedFilesList_run.
  - unfold world_of at 1. cbn [fst snd]. apply list_shown_after_update.
  - reflexivity.
  - reflexivity.
  - intros _. split; reflexivity.
Qed.

Lemma successful_upload_appends_descriptor_witness :
  let w := {| this := constructor 1700000000000 "0.4fzyo82mvyr";
              page := {| analysisForm := true;
                         uploadedFilesContainer := Some "";
                         resultsSection := Some "none";
                         resultsContent := true |} |} in
  let result := {| success := Prim (PBool true);
                   content_type := Prim (PStr "text");
                   attachment_id := PUndefined;
                   error := undefined |} in
  uploadedFiles
    (this (world_of (uploadFile {| File.name := "notas.txt"; File.size := 10 |}
                       1700000000001 (Responded false (inr result)) w)))
  = [{| name := "notas.txt"; size := 10; type := Prim (PStr "text");
        id := PNum (Dec 1700000000001 0) |}].
Proof.
  intros w result.
  exact (f_equal uploadedFiles
           (proj1 (successful_upload_appends_descriptor
                     {| File.name := "notas.txt"; File.size := 10 |}
                     1700000000001 false result w eq_refl))).
Defined.

Lemma removeFile_run fileId w :
  removeFile fileId w
  = (Normal tt,
     world_of (updateUploadedFilesList
                 {| this := {| sessionId := sessionId (this w);
                               uploadedFiles :=
                                 filter (fun file =>
                                           negb (strict_equals (id file) fileId))
                                   (uploadedFiles (this w));
                               currentAnalysis := currentAnalysis (this w) |};
                    page := page w |}),
     []).
Proof.
  rewrite shown_page_spec. destruct w as [a p].
  unfold removeFile. run_method.
  rewrite updateUploadedFilesList_run. reflexivity.
Qed.

(** X8.  [removeFile] keeps exactly the descriptors whose id is not
    strictly equal to the id given, in their order: it never adds one,
    an id that no descriptor has changes nothing, a second call with the
    same id changes nothing more, and the page shows the list that is
    left. *)
Theorem removeFile_only_removes fileId w :
  let w1 := world_of (removeFile fileId w) in
  (forall f, In f (uploadedFiles (this w1))
             <-> In f (uploadedFiles (this w))
                 /\ strict_equals (id f) fileId = false)
  /\ ((forall f, In f (uploadedFiles (this w)) ->
                 strict_equals (id f) fileId = false) ->
      uploadedFiles (this w1) = uploadedFiles (this w))
  /\ uploadedFiles (this (world_of (removeFile fileId w1)))
     = uploadedFiles (this w1)
  /\ sessionId (this w1) = sessionId (this w)
  /\ currentAnalysis (this w1) = currentAnalysis (this w)
  /\ list_shown w1.
Proof.
  intros w1. unfold w1. rewrite !removeFile_this. cbn [uploadedFiles sessionId currentAnalysis].
  split; [|split; [|split; [|split; [|split]]]]; try reflexivity.
  - intros f. rewrite filter_In, negb_true_iff. tauto.
  - intros H. apply filter_all. intros f Hin. now rewrite (H f Hin).
  - apply filter_all. intros f Hin. now apply filter_In in Hin as [_ Hin].
  - rewrite removeFile_run. unfold world_of at 1. cbn [fst snd].
    apply list_shown_after_update.
Qed.

(** How one upload moves the state and what it emits. *)
Lemma uploadFile_step file now answer w :
  exists w1 es,
    uploadFile file now answer w = (Normal tt, w1, es)
    /\ this w1
       = {| sessionId := sessionId (this w);
            uploadedFiles :=
              uploadedFiles (this w) ++ accepted [(file, now, answer)];
            currentAnalysis := currentAnalysis (this w) |}
    /\ requests_to "/api/upload_attachment" es
       = [upload_request file (sessionId (this w))]
    /\ length (notifications "success" es)
       = length (accepted [(file, now, answer)])
    /\ (length (notifications "success" es)
        + length (notifications "error" es) = 1)%nat.
Proof.
  destruct (upload_failed_dec answer) as [Hf | [ok [result [-> Hs]]]].
  - destruct (uploadFile_failure_run file now answer w Hf) as [message E].
    eexists w, _. split; [exact E|].
    assert (accepted [(file, now, answer)] = []) as ->.
    { destruct answer as [msg | ok [msg | result]]; cbn in *;
        try reflexivity. now rewrite Hf. }
    rewrite app_nil_r. destruct w as [[s l c] p].
    repeat split; reflexivity.
  - eexists _, _. split; [apply (uploadFile_success_run _ _ _ _ _ Hs)|].
    rewrite shown_page_spec. cbn [this accepted flat_map].
    rewrite Hs. cbn [app]. repeat split; reflexivity.
Qed.

Lemma requests_to_app url es es' :
  requests_to url (es ++ es') = (requests_to url es ++ requests_to url es')%list.
Proof. apply flat_map_app. Qed.

Lemma notifications_app kind es es' :
  notifications kind (es ++ es')
  = (notifications kind es ++ notifications kind es')%list.
Proof. apply flat_map_app. Qed.

Lemma accepted_cons u uploads :
  accepted (u :: uploads) = (accepted [u] ++ accepted uploads)%list.
Proof. unfold accepted. cbn [flat_map]. now rewrite app_nil_r. Qed.

(** X10.  For files whose names, and whose error messages if their
    upload fails, are without the character [<], [processFiles] uploads
    the files one after the other and returns: it sends one request per
    file, in the order of the files and each with the session id, appends
    the descriptors of the uploads that succeed, in that order, after the
    descriptors the list had, and shows one notification per file, a
    success for each descriptor appended and an error for each other
    file.  A failed upload does not stop the ones after it. *)
Theorem processFiles_appends_in_order uploads w
  (Hplain : forall file now answer,
      In (file, now, answer) uploads ->
      plain (File.name file)
      /\ forall message, upload_error answer = Some message -> plain message) :
  let r := processFiles uploads w in
  result_of r = Normal tt
  /\ this (world_of r)
     = {| sessionId := sessionId (this w);
          uploadedFiles := uploadedFiles (this w) ++ accepted uploads;
          currentAnalysis := currentAnalysis (this w) |}
  /\ requests_to "/api/upload_attachment" (events_of r)
     = map (fun u => upload_request (fst (fst u)) (sessionId (this w))) uploads
  /\ length (notifications "success" (events_of r)) = length (accepted uploads)
  /\ (length (notifications "success" (events_of r))
      + length (notifications "error" (events_of r)) = length uploads)%nat.
Proof.
  clear Hplain.
  revert w. induction uploads as [|[[file now] answer] uploads IH]; intros w r.
  - unfold r. cbn. rewrite app_nil_r. destruct w as [[s l c] p].
    repeat split; reflexivity.
  - destruct (uploadFile_step file now answer w)
      as [w1 [es [E [Hthis [Hreq [Hok Hone]]]]]].
    specialize (IH w1). cbv zeta in IH.
    destruct IH as [Hres [Hthis' [Hreq' [Hok' Hall']]]].
    assert (r = (result_of (processFiles uploads w1),
                 world_of (processFiles uploads w1),
                 (es ++ events_of (processFiles uploads w1))%list)) as ->.
    { unfold r. cbn [processFiles]. unfold bind. rewrite E.
      now destruct (processFiles uploads w1) as [[x y] z]. }
    unfold result_of, world_of, events_of in *. cbn [fst snd] in *.
    split; [exact Hres|]. split; [|split; [|split]].
    + rewrite Hthis', Hthis. cbn [sessionId uploadedFiles currentAnalysis].
      now rewrite (accepted_cons (file, now, answer) uploads), app_assoc.
    + rewrite requests_to_app, Hreq, Hreq', Hthis. reflexivity.
    + rewrite notifications_app, length_app, Hok, Hok'.
      now rewrite (accepted_cons (file, now, answer) uploads), length_app.
    + rewrite !notifications_app, !length_app. cbn [length]. lia.
Qed.

Lemma processFiles_appends_in_order_witness :
  let w := {| this := constructor 1700000000000 "0.4fzyo82mvyr";
              page := {| analysisForm := true;
                         uploadedFilesContainer := Some "";
                         resultsSection := Some "none";
                         resultsContent := true |} |} in
  let refused := {| success := Prim (PBool false);
                    content_type := undefined;
                    attachment_id := PUndefined;
                    error := Prim (PStr "tipo não suportado") |} in
  let stored := {| success := Prim (PBool true);
                   content_type := Prim (PStr "text");
                   attachment_id := PStr "att-7";
                   error := undefined |} in
  let uploads :=
    [({| File.name := "x.exe"; File.size := 10 |}, 1700000000001%N,
      Responded true (inr refused));
     ({| File.name := "notas.txt"; File.size := 2048 |}, 1700000000002%N,
      Responded true (inr stored))] in
  uploadedFiles (this (world_of (processFiles uploads w)))
  = [{| name := "notas.txt"; size := 2048; type := Prim (PStr "text");
        id := PStr "att-7" |}]
  /\ length (requests_to "/api/upload_attachment"
               (events_of (processFiles uploads w))) = 2%nat.
Proof.
  intros w refused stored uploads.
  assert (forall file now answer,
             In (file, now, answer) uploads ->
             plain (File.name file)
             /\ forall message,
                  upload_error answer = Some message -> plain message) as Hplain.
  { intros file now answer [E | [E | []]]; injection E as <- <- <-;
      (split; [reflexivity|]); intros message Hm; cbn in Hm;
      try discriminate Hm; injection Hm as <-; reflexivity. }
  pose proof (processFiles_appends_in_order uploads w Hplain) as H.
  cbv zeta in H. destruct H as [_ [Hthis [Hreq _]]].
  split.
  - now rewrite Hthis.
  - now rewrite Hreq.
Defined.


(** X9.  The remove button of a list item calls [removeFile] with the
    id written as text between quotes, so with a string.  Whatever string
    the call passes, a descriptor whose id is a Number, as the id taken
    from the clock is, stays in the list.  A descriptor whose id is a
    string of letters, digits and underscores is removed by the call its
    button makes. *)
Theorem remove_button_needs_a_string_id f w
  (Hlisted : In f (uploadedFiles (this w))) :
  (exists before after,
      file_item f
      = before ++ "app.removeFile('" ++ primToString (id f) ++ "')" ++ after)
  /\ (forall n s, id f = PNum n ->
                  In f (uploadedFiles (this (world_of (removeFile (PStr s) w)))))
  /\ (forall s, id f = PStr s -> word_only s ->
                ~ In f (uploadedFiles
                          (this (world_of (removeFile (PStr s) w))))).
Proof.
  split; [|split].
  - exists (html "
            <div class=~file-item~ data-file-id=~" ++ primToString (id f)
            ++ html "~>
                <div class=~file-info~>
                    <i class=~fas fa-file-alt~></i>
                    <div>
                        <div class=~file-name~>" ++ name f
            ++ html "</div>
                        <div class=~file-size~>" ++ formatFileSize (size f)
            ++ html " • " ++ toString (type f)
            ++ html "</div>
                    </div>
                </div>
                <button class=~file-remove~ onclick=~"),
           (html "~>
                    <i class=~fas fa-times~></i>
                </button>
            </div>
        ").
    unfold file_item. rewrite !append_assoc. reflexivity.
  - intros n s Hid. rewrite removeFile_this. cbn [uploadedFiles].
    apply filter_In. split; [assumption|]. now rewrite Hid.
  - intros s Hid _. rewrite removeFile_this. cbn [uploadedFiles].
    intros Hin. apply filter_In in Hin as [_ Hin].
    rewrite Hid in Hin. cbn in Hin. now rewrite String.eqb_refl in Hin.
Qed.

Lemma remove_button_needs_a_string_id_witness :
  let f := {| name := "notas.txt"; size := 10; type := Prim (PStr "text");
              id := PNum (Dec 1700000000001 0) |} in
  let w := {| this := {| sessionId := generateSessionId 1700000000000 "0.4fzyo82mvyr";
                         uploadedFiles := [f];
                         currentAnalysis := null |};
              page := {| analysisForm := true;
                         uploadedFilesContainer := Some "";
                         resultsSection := Some "none";
                         resultsContent := true |} |} in
  In f (uploadedFiles (this (world_of (removeFile (PStr "1700000000001") w)))).
Proof.
  intros f w.
  exact (proj1 (proj2 (remove_button_needs_a_string_id f w (or_introl eq_refl)))
           _ "1700000000001" eq_refl).
Defined.

(* ================================================================= *)
(** ** Further properties of the PDF download *)

Lemma downloadPDF_run isoNow answer w :
  truthy (currentAnalysis (this w)) = true ->
  downloadPDF isoNow answer w
  = (Normal tt, w,
     Fetch "/api/generate_pdf" (pdf_request (currentAnalysis (this w)))
     :: match answer with
        | Responded true (inr _) =>
            [SaveFile ("analise_mercado_" ++ substring 0 10 isoNow ++ ".pdf")]
        | Responded true (inl message) | Rejected message =>
            [ConsoleError "Erro ao baixar PDF:" message;
             ShowNotification ("Erro ao gerar PDF: " ++ message) "error"]
        | Responded false _ =>
            [ConsoleError "Erro ao baixar PDF:" "Erro ao gerar PDF";
             ShowNotification "Erro ao gerar PDF: Erro ao gerar PDF" "error"]
        end).
Proof.
  intros H. destruct w as [a p]. cbn [this] in H.
  unfold downloadPDF. run_method. rewrite H.
  destruct answer as [msg | [|] [msg | []]]; reflexivity.
Qed.

Lemma downloadPDF_refused isoNow answer w :
  truthy (currentAnalysis (this w)) = false ->
  downloadPDF isoNow answer w
  = (Normal tt, w,
     [ShowNotification "Nenhuma análise disponível para download." "error"]).
Proof.
  intros H. destruct w as [a p]. cbn [this] in H.
  unfold downloadPDF. run_method. now rewrite H.
Qed.

Lemma downloadPDF_world isoNow answer w :
  world_of (downloadPDF isoNow answer w) = w.
Proof.
  destruct (truthy (currentAnalysis (this w))) eqn:H.
  - now rewrite (downloadPDF_run _ _ _ H).
  - now rewrite (downloadPDF_refused _ _ _ H).
Qed.

Lemma downloadPDF_requests isoNow answer w :
  requests_to "/api/generate_pdf" (events_of (downloadPDF isoNow answer w))
  = if truthy (currentAnalysis (this w))
    then [pdf_request (currentAnalysis (this w))]
    else [].
Proof.
  destruct (truthy (currentAnalysis (this w))) eqn:H.
  - rewrite (downloadPDF_run _ _ _ H).
    destruct answer as [msg | [|] [msg | []]]; reflexivity.
  - now rewrite (downloadPDF_refused _ _ _ H).
Qed.

(** X11.  [downloadPDF] never changes the state, whatever the answer.
    With a stored analysis it sends exactly one request, whose body is
    the JSON text of the analysis; with none, or with a stored result
    that is falsy, it sends no request. *)
Theorem downloadPDF_keeps_the_state isoNow answer w :
  world_of (downloadPDF isoNow answer w) = w
  /\ requests_to "/api/generate_pdf" (events_of (downloadPDF isoNow answer w))
     = if truthy (currentAnalysis (this w))
       then [pdf_request (currentAnalysis (this w))]
       else [].
Proof.
  split; [apply downloadPDF_world | apply downloadPDF_requests].
Qed.

(** X12.  With a stored analysis, a download that succeeds saves the
    file named analise_mercado_, the first ten characters of the ISO
    date, .pdf, and shows no notification; a request that rejects, or a
    body that cannot be read, is reported with its message; a status that
    is not a success is reported with the text Erro ao gerar PDF twice,
    the prefix and the message being the same text. *)
Theorem downloadPDF_outcomes isoNow w
  (Hstored : truthy (currentAnalysis (this w)) = true) :
  (forall blob,
      events_of (downloadPDF isoNow (Responded true (inr blob)) w)
      = [Fetch "/api/generate_pdf" (pdf_request (currentAnalysis (this w)));
         SaveFile ("analise_mercado_" ++ substring 0 10 isoNow ++ ".pdf")])
  /\ (forall message,
         notifications "error"
           (events_of (downloadPDF isoNow (Rejected message) w))
         = ["Erro ao gerar PDF: " ++ message]
         /\ notifications "error"
              (events_of (downloadPDF isoNow (Responded true (inl message)) w))
            = ["Erro ao gerar PDF: " ++ message])
  /\ (forall payload,
         notifications "error"
           (events_of (downloadPDF isoNow (Responded false payload) w))
         = ["Erro ao gerar PDF: Erro ao gerar PDF"]).
Proof.
  split; [|split].
  - intros []. now rewrite (downloadPDF_run _ _ _ Hstored).
  - intros message. now rewrite !(downloadPDF_run _ _ _ Hstored).
  - intros payload. rewrite (downloadPDF_run _ _ _ Hstored).
    destruct payload as [msg | []]; reflexivity.
Qed.

Lemma downloadPDF_outcomes_witness :
  let w := {| this := {| sessionId := generateSessionId 1700000000000 "0.4fzyo82mvyr";
                         uploadedFiles := [];
                         currentAnalysis :=
                           Obj [("insights_exclusivos",
                                 Arr [Prim (PStr "A"); Prim (PStr "B")])] |};
              page := {| analysisForm := true;
                         uploadedFilesContainer := Some "";
                         resultsSection := Some "block";
                         resultsContent := true |} |} in
  events_of (downloadPDF "2026-01-15T10:00:00.000Z" (Responded true (inr tt)) w)
  = [Fetch "/api/generate_pdf"
       {| method := "POST";
          headers := [("Content-Type", "application/json")];
          body := TextBody (Some (html "{~insights_exclusivos~:[~A~,~B~]}")) |};
     SaveFile "analise_mercado_2026-01-15.pdf"].
Proof.
  intros w.
  exact (proj1 (downloadPDF_outcomes "2026-01-15T10:00:00.000Z" w eq_refl) tt).
Defined.

(** What [handleFormSubmit] leaves of [this]: only the current analysis
    can change, and only to the result of a successful answer. *)
Lemma handleFormSubmit_this form answer w :
  sessionId (this (world_of (handleFormSubmit form answer w)))
  = sessionId (this w)
  /\ uploadedFiles (this (world_of (handleFormSubmit form answer w)))
     = uploadedFiles (this w)
  /\ (currentAnalysis (this (world_of (handleFormSubmit form answer w)))
      = currentAnalysis (this w)
      \/ exists result,
           answer = Responded true (inr result)
           /\ ~ blank (FormData_get form "segmento")
           /\ currentAnalysis (this (world_of (handleFormSubmit form answer w)))
              = result).
Proof.
  destruct (truthy_prim (property (collectFormData (this w) form) "segmento"))
    eqn:Hv.
  - assert (~ blank (FormData_get form "segmento")) as Hnb.
    { intros Hb. rewrite property_segmento, (blank_is_empty _ Hb) in Hv.
      discriminate Hv. }
    assert (world_of (handleFormSubmit form answer w)
            = world_of (performAnalysis (collectFormData (this w) form) answer w))
      as ->.
    { unfold handleFormSubmit, bind, emit, get_this. cbv beta iota.
      rewrite (validateFormData_present _ _ Hv).
      change (negb true) with false. cbv beta iota.
      now destruct (performAnalysis _ answer w) as [[r w2] es2]. }
    destruct (analysis_error answer) as [message|] eqn:E.
    + rewrite (performAnalysis_failure _ _ _ _ E). cbn. auto.
    + destruct answer as [msg | [|] [msg | result]]; try discriminate E.
      * destruct w as [a [f c [d|] rc]]; [destruct rc|]; cbn;
          (split; [reflexivity|]; split; [reflexivity|]; right;
           exists result; auto).
      * cbn in E. destruct (get result "message"); discriminate E.
  - rewrite (handleFormSubmit_invalid _ _ _ Hv). cbn. auto.
Qed.

Lemma startNewAnalysis_run now random36 w :
  world_of (startNewAnalysis now random36 w)
  = {| this := {| sessionId := generateSessionId now random36;
                  uploadedFiles := [];
                  currentAnalysis := null |};
       page := reset_page (page w) |}.
Proof. apply startNewAnalysis_world. Qed.

(** X13.  A download right after [startNewAnalysis] is refused, whatever
    was stored before: no request goes out and the error notification
    appears.  The page then shows an empty upload list and hides the
    results, where it has these elements. *)
Theorem download_after_new_analysis_is_refused now random36 isoNow answer w :
  let w1 := world_of (startNewAnalysis now random36 w) in
  downloadPDF isoNow answer w1
  = (Normal tt, w1,
     [ShowNotification "Nenhuma análise disponível para download." "error"])
  /\ list_shown w1
  /\ results_hidden (page w1).
Proof.
  intros w1. unfold w1. rewrite startNewAnalysis_run.
  split; [now apply downloadPDF_refused|]. split.
  - unfold list_shown, reset_page; cbn.
    now destruct (uploadedFilesContainer (page w)).
  - apply reset_page_hidden.
Qed.

(** X14.  After a submission that succeeds with a truthy result, a
    download posts the JSON text of that very result; a result that is
    falsy (null, false, 0, the empty string) is stored all the same and
    the download is then refused. *)
Theorem download_posts_the_stored_result form result isoNow answer w
  (Hsegmento : ~ blank (FormData_get form "segmento")) :
  let w1 := world_of (handleFormSubmit form (Responded true (inr result)) w) in
  currentAnalysis (this w1) = result
  /\ requests_to "/api/generate_pdf" (events_of (downloadPDF isoNow answer w1))
     = if truthy result then [pdf_request result] else [].
Proof.
  intros w1.
  assert (currentAnalysis (this w1) = result) as E.
  { unfold w1.
    assert (truthy_prim (property (collectFormData (this w) form) "segmento")
            = true) as Hv.
    { rewrite property_segmento.
      destruct (FormData_get_cases form "segmento") as [H | [s H]].
      - exfalso. apply Hsegmento. now left.
      - assert (s <> "") as Hs by (intros ->; apply Hsegmento; now right).
        rewrite H, (is_empty_nonempty _ Hs). now apply truthy_nonempty. }
    unfold handleFormSubmit, bind, emit, get_this. cbv beta iota.
    rewrite (validateFormData_present _ _ Hv).
    change (negb true) with false. cbv beta iota.
    destruct w as [a [f c [d|] rc]]; [destruct rc|]; reflexivity. }
  split; [exact E|].
  rewrite <- E. apply downloadPDF_requests.
Qed.

Lemma download_posts_the_stored_result_witness :
  let w := {| this := constructor 1700000000000 "0.4fzyo82mvyr";
              page := {| analysisForm := true;
                         uploadedFilesContainer := Some "";
                         resultsSection := Some "none";
                         resultsContent := true |} |} in
  let result := Obj [("insights_exclusivos", Arr [Prim (PStr "A")])] in
  let w1 := world_of (handleFormSubmit [("segmento", "fitness")]
                        (Responded true (inr result)) w) in
  requests_to "/api/generate_pdf"
    (events_of (downloadPDF "2026-01-15T10:00:00.000Z" (Rejected "offline") w1))
  = [pdf_request result].
Proof.
  intros w result w1.
  refine (proj2 (download_posts_the_stored_result [("segmento", "fitness")]
                   result "2026-01-15T10:00:00.000Z" (Rejected "offline") w _)).
  intros [H | H]; discriminate H.
Defined.

(* ================================================================= *)
(** ** Further properties of file sizes and session ids *)

Lemma unit_of_index bytes :
  (0 < bytes)%N ->
  nth (floor_log_1024 bytes) ["Bytes"; "KB"; "MB"; "GB"] "undefined"
  = unit_of bytes.
Proof.
  intros Hpos. pose proof (floor_log_1024_spec bytes Hpos) as [Hlo Hhi].
  unfold unit_of.
  destruct (floor_log_1024 bytes) as [|[|[|[|i]]]].
  - cbn in Hhi. assert ((bytes <? 1024)%N = true) as -> by (apply N.ltb_lt; lia).
    reflexivity.
  - cbn in Hlo, Hhi.
    assert ((bytes <? 1024)%N = false) as -> by (apply N.ltb_ge; lia).
    assert ((bytes <? 1024 ^ 2)%N = true) as -> by (apply N.ltb_lt; cbn; lia).
    reflexivity.
  - cbn in Hlo, Hhi.
    assert ((bytes <? 1024)%N = false) as -> by (apply N.ltb_ge; lia).
    assert ((bytes <? 1024 ^ 2)%N = false) as -> by (apply N.ltb_ge; cbn; lia).
    assert ((bytes <? 1024 ^ 3)%N = true) as -> by (apply N.ltb_lt; cbn; lia).
    reflexivity.
  - cbn in Hlo, Hhi.
    assert ((bytes <? 1024)%N = false) as -> by (apply N.ltb_ge; lia).
    assert ((bytes <? 1024 ^ 2)%N = false) as -> by (apply N.ltb_ge; cbn; lia).
    assert ((bytes <? 1024 ^ 3)%N = false) as -> by (apply N.ltb_ge; cbn; lia).
    assert ((bytes <? 1024 ^ 4)%N = true) as -> by (apply N.ltb_lt; cbn; lia).
    reflexivity.
  - clear Hhi.
    assert (1024 ^ 4 <= bytes)%N as H4.
    { etransitivity; [|exact Hlo]. apply N.pow_le_mono_r; lia. }
    cbn in H4.
    assert ((bytes <? 1024)%N = false) as -> by (apply N.ltb_ge; lia).
    assert ((bytes <? 1024 ^ 2)%N = false) as -> by (apply N.ltb_ge; cbn; lia).
    assert ((bytes <? 1024 ^ 3)%N = false) as -> by (apply N.ltb_ge; cbn; lia).
    assert ((bytes <? 1024 ^ 4)%N = false) as -> by (apply N.ltb_ge; cbn; lia).
    destruct i; reflexivity.
Qed.

(** X15.  For a size that is not zero, the text of [formatFileSize] ends
    with a space and the unit of the size: Bytes below 1024, KB below
    1024^2, MB below 1024^3, GB below 1024^4, and, the table of units
    having no fifth name, the word undefined from 1024^4 bytes on.  The
    property is stated away from the exact powers of 1024, where the
    floor of a binary64 quotient of logarithms may differ from the floor
    of the real quotient. *)
Theorem formatFileSize_unit bytes
  (Hpositive : (0 < bytes)%N)
  (Hinside : forall k, (0 < k)%N -> bytes <> (1024 ^ k)%N) :
  exists number, formatFileSize bytes = number ++ " " ++ unit_of bytes.
Proof.
  unfold formatFileSize.
  assert ((bytes =? 0)%N = false) as -> by (apply N.eqb_neq; lia).
  eexists. rewrite (unit_of_index bytes Hpositive). reflexivity.
Qed.

Lemma formatFileSize_unit_witness :
  formatFileSize (5 * 1024 ^ 4) = "5 undefined"
  /\ exists number, formatFileSize 1536 = number ++ " " ++ "KB".
Proof.
  split; [vm_compute; reflexivity|].
  apply (formatFileSize_unit 1536 eq_refl).
  intros k Hk E.
  destruct (N.le_gt_cases k 1) as [H | H].
  - assert (k = 1%N) as -> by lia. discriminate E.
  - assert (1024 ^ 2 <= 1024 ^ k)%N as Hp
        by (apply N.pow_le_mono_r; [discriminate | lia]).
    rewrite <- E in Hp. cbn in Hp. lia.
Defined.

Lemma substring_length n m s : (String.length (substring n m s) <= m)%nat.
Proof.
  revert n m. induction s as [|c s IH]; intros [|n] [|m]; cbn; try lia.
  - specialize (IH 0%nat m). lia.
  - apply (IH n 0%nat).
  - apply (IH n (S m)).
Qed.

(** X16.  A session id is the text session_, the digits of the clock
    reading, an underscore and at most nine characters of the random
    text, taken after its first two.  Two ids are equal exactly when the
    two clock readings are equal and the characters kept are the same. *)
Theorem session_ids_are_equal_exactly_when now random36 now' random36' :
  (generateSessionId now random36 = generateSessionId now' random36'
   <-> now = now' /\ substring 2 9 random36 = substring 2 9 random36')
  /\ (exists suffix,
        generateSessionId now random36
        = "session_" ++ digits now ++ "_" ++ suffix
        /\ (String.length suffix <= 9)%nat
        /\ only_digits (digits now)).
Proof.
  split.
  - split.
    + apply generateSessionId_inj.
    + intros [-> E]. unfold generateSessionId. now rewrite E.
  - exists (substring 2 9 random36).
    split; [reflexivity|]. split; [apply substring_length | apply digits_only].
Qed.

(* ================================================================= *)
(** ** Invariants of the controller *)

Lemma uploadFile_this file now answer w :
  this (world_of (uploadFile file now answer w))
  = {| sessionId := sessionId (this w);
       uploadedFiles := uploadedFiles (this w) ++ accepted [(file, now, answer)];
       currentAnalysis := currentAnalysis (this w) |}.
Proof.
  destruct (uploadFile_step file now answer w) as [w1 [es [E [H _]]]].
  now rewrite E.
Qed.

(** In a reachable state the session id is one [generateSessionId] made. *)
Lemma reachable_session w :
  reachable w ->
  exists now random36, sessionId (this w) = generateSessionId now random36.
Proof.
  induction 1 as [now r p | w form answer _ IH | w file now answer _ IH
                  | w fileId _ IH | w iso answer _ IH | w now r _ IH].
  - exists now, r. reflexivity.
  - now rewrite (proj1 (handleFormSubmit_this form answer w)).
  - now rewrite uploadFile_this.
  - now rewrite removeFile_this.
  - now rewrite downloadPDF_world.
  - exists now, r. now rewrite startNewAnalysis_world.
Qed.

(** In a reachable state every descriptor has an id strictly equal to
    itself. *)
Lemma reachable_ids w :
  reachable w ->
  forall f, In f (uploadedFiles (this w)) -> strict_equals (id f) (id f) = true.
Proof.
  induction 1 as [now r p | w form answer _ IH | w file now answer _ IH
                  | w fileId _ IH | w iso answer _ IH | w now r _ IH];
    intros f Hin.
  - contradiction.
  - rewrite (proj1 (proj2 (handleFormSubmit_this form answer w))) in Hin. auto.
  - rewrite uploadFile_this in Hin. cbn [uploadedFiles] in Hin.
    apply in_app_or in Hin as [Hin | Hin]; [auto|].
    destruct answer as [msg | ok [msg | result]]; cbn in Hin;
      try contradiction.
    destruct (truthy (success result)); cbn in Hin; [|contradiction].
    destruct Hin as [<- | []]. apply descriptor_id_refl.
  - rewrite removeFile_this in Hin. cbn [uploadedFiles] in Hin.
    apply filter_In in Hin as [Hin _]. auto.
  - rewrite downloadPDF_world in Hin. auto.
  - rewrite startNewAnalysis_world in Hin. contradiction.
Qed.

(** X17.  In every state the controller can reach, the session id is
    one made by [generateSessionId], hence not empty, and the payload of
    every form carries it as its first property, session_id. *)
Theorem every_payload_carries_the_session_id w form
  (Hreachable : reachable w) :
  (exists now random36, sessionId (this w) = generateSessionId now random36)
  /\ sessionId (this w) <> ""
  /\ exists others,
       collectFormData (this w) form
       = ("session_id", PStr (sessionId (this w))) :: others.
Proof.
  destruct (reachable_session w Hreachable) as [now [r E]].
  assert (sessionId (this w) <> "") as Hne
      by (rewrite E; apply generateSessionId_nonempty).
  split; [eauto|]. split; [exact Hne|].
  rewrite collectFormData_filter. unfold collected. cbn [filter snd].
  rewrite (is_empty_nonempty _ Hne). cbn [negb]. eauto.
Qed.

Lemma every_payload_carries_the_session_id_witness :
  let w := {| this := constructor 1700000000000 "0.4fzyo82mvyr";
              page := {| analysisForm := true;
                         uploadedFilesContainer := Some "";
                         resultsSection := Some "none";
                         resultsContent := true |} |} in
  let w1 := world_of (startNewAnalysis 1700000000005 "0.k3j9x0q2lmna"
                        (world_of (handleFormSubmit [("segmento", "fitness")]
                                     (Rejected "offline") w))) in
  sessionId (this w1) <> ""
  /\ exists others,
       collectFormData (this w1) [("produto", "Curso")]
       = ("session_id", PStr (sessionId (this w1))) :: others.
Proof.
  intros w w1.
  refine (proj2 (every_payload_carries_the_session_id w1 [("produto", "Curso")] _)).
  unfold w1. apply reach_startNewAnalysis, reach_handleFormSubmit.
  apply reach_constructor.
Defined.

(** X18.  In every state the controller can reach, [removeFile] called
    with the id of a listed descriptor takes that descriptor off the
    list: an id is a truthy value of the answer or a clock reading, never
    NaN, so it is strictly equal to itself. *)
Theorem removing_by_its_own_id_removes_the_file w f
  (Hreachable : reachable w)
  (Hlisted : In f (uploadedFiles (this w))) :
  strict_equals (id f) (id f) = true
  /\ ~ In f (uploadedFiles (this (world_of (removeFile (id f) w)))).
Proof.
  pose proof (reachable_ids w Hreachable f Hlisted) as Hid.
  split; [exact Hid|].
  rewrite removeFile_this. cbn [uploadedFiles].
  intros Hin. apply filter_In in Hin as [_ Hin].
  now rewrite Hid in Hin.
Qed.

Lemma removing_by_its_own_id_removes_the_file_witness :
  let w := {| this := constructor 1700000000000 "0.4fzyo82mvyr";
              page := {| analysisForm := true;
                         uploadedFilesContainer := Some "";
                         resultsSection := Some "none";
                         resultsContent := true |} |} in
  let result := {| success := Prim (PBool true);
                   content_type := Prim (PStr "text");
                   attachment_id := PUndefined;
                   error := undefined |} in
  let file := {| File.name := "notas.txt"; File.size := 10 |} in
  let w1 := world_of (uploadFile file 1700000000001
                        (Responded true (inr result)) w) in
  let f := new_descriptor file result 1700000000001 in
  strict_equals (id f) (id f) = true
  /\ ~ In f (uploadedFiles (this (world_of (removeFile (id f) w1)))).
Proof.
  intros w result file w1 f.
  apply (removing_by_its_own_id_removes_the_file w1 f).
  - unfold w1. apply reach_uploadFile, reach_constructor.
  - left. reflexivity.
Defined.

(* ================================================================= *)
(** ** Labels *)

Lemma replace_first_underscore_length s :
  String.length (replace_first_underscore s) = String.length s.
Proof.
  induction s as [|c s IH]; cbn; [reflexivity|].
  destruct (Ascii.eqb c "_"); cbn; [reflexivity | now rewrite IH].
Qed.

Lemma capitalize_words_length b s :
  String.length (capitalize_words b s) = String.length s.
Proof.
  revert b. induction s as [|c s IH]; intros b; cbn; [reflexivity|].
  now rewrite IH.
Qed.

Lemma get_replace_first_hit s i :
  String.get i s = Some "_"%char ->
  (forall j, (j < i)%nat -> String.get j s <> Some "_"%char) ->
  String.get i (replace_first_underscore s) = Some " "%char.
Proof.
  revert i. induction s as [|x s IH]; intros i Hget Hfirst; [discriminate|].
  cbn [replace_first_underscore]. destruct i as [|i].
  - cbn in Hget. injection Hget as ->. reflexivity.
  - assert (Ascii.eqb x "_" = false) as ->.
    { apply Ascii.eqb_neq. intros ->. now apply (Hfirst 0%nat); [lia|]. }
    cbn in *. apply IH; [assumption|].
    intros j Hj. apply (Hfirst (S j)). lia.
Qed.

Lemma get_replace_first_miss s i c :
  String.get i s = Some c ->
  c <> "_"%char
  \/ (exists j, (j < i)%nat /\ String.get j s = Some "_"%char) ->
  String.get i (replace_first_underscore s) = Some c.
Proof.
  revert i. induction s as [|x s IH]; intros i Hget Hother; [discriminate|].
  cbn [replace_first_underscore].
  destruct (Ascii.eqb x "_") eqn:Ex.
  - apply Ascii.eqb_eq in Ex. subst x. destruct i as [|i].
    + cbn in Hget. injection Hget as <-.
      destruct Hother as [H | [j [Hj _]]]; [now contradiction H | lia].
    + exact Hget.
  - destruct i as [|i]; [exact Hget|].
    cbn in *. apply IH; [assumption|].
    destruct Hother as [H | [j [Hj Hu]]]; [now left|].
    right. destruct j as [|j].
    + cbn in Hu. injection Hu as ->. discriminate Ex.
    + exists j. split; [lia | exact Hu].
Qed.

Lemma get_capitalize_words s b i c :
  String.get i s = Some c ->
  String.get i (capitalize_words b s)
  = Some (if is_word c
             && negb match i with
                     | O => b
                     | S j => match String.get j s with
                              | Some p => is_word p
                              | None => false
                              end
                     end
          then toUpperCase c else c).
Proof.
  revert b i. induction s as [|x s IH]; intros b i Hget; [discriminate|].
  cbn [capitalize_words]. destruct i as [|i].
  - cbn in *. now injection Hget as ->.
  - cbn [String.get] in *. rewrite (IH (is_word x) i Hget).
    destruct i as [|i]; reflexivity.
Qed.

(** X19.  A key of the table gets its label.  A key that is neither in
    the table nor an inherited name gets a label made in two steps, each
    of which keeps the length.  First the key with its first underscore,
    and no other character, turned into a space.  Then that text with
    every word character that starts the text or follows a character
    outside the word class turned to upper case, and no other character
    changed; an underscore is a word character, so a letter after a later
    underscore stays as it is: nivel_de_renda gives Nivel De_renda. *)
Theorem formatLabel_turns_only_the_first_underscore key :
  (forall label, lookup labels key = Some label ->
                 formatLabel key = Some label)
  /\ (lookup labels key = None ->
      existsb (String.eqb key) inherited_names = false ->
      exists spaced label,
        formatLabel key = Some label
        /\ String.length spaced = String.length key
        /\ (forall i,
               String.get i key = Some "_"%char ->
               (forall j, (j < i)%nat -> String.get j key <> Some "_"%char) ->
               String.get i spaced = Some " "%char)
        /\ (forall i c,
               String.get i key = Some c ->
               c <> "_"%char
               \/ (exists j, (j < i)%nat /\ String.get j key = Some "_"%char) ->
               String.get i spaced = Some c)
        /\ String.length label = String.length key
        /\ (forall i c,
               String.get i spaced = Some c ->
               String.get i label
               = Some (if is_word c
                          && negb match i with
                                  | O => false
                                  | S j => match String.get j spaced with
                                           | Some p => is_word p
                                           | None => false
                                           end
                                  end
                       then toUpperCase c else c)))
  /\ formatLabel "nivel_de_renda" = Some "Nivel De_renda"
  /\ formatLabel "ticket médio" = Some "Ticket MéDio"
  /\ formatLabel "estado_civil" = Some "Estado Civil".
Proof.
  split; [|split; [|repeat split; reflexivity]].
  - intros label H. unfold formatLabel. rewrite H.
    assert (existsb (String.eqb key) inherited_names = false) as ->;
      [|reflexivity].
    unfold labels in H. cbn [lookup] in H.
    repeat match type of H with
           | (if String.eqb ?k key then _ else _) = _ =>
               let E := fresh "E" in
               destruct (String.eqb k key) eqn:E;
               [apply String.eqb_eq in E; subst key; reflexivity|]
           end.
    discriminate H.
  - intros Hnone Hown. unfold formatLabel. rewrite Hown, Hnone.
    exists (replace_first_underscore key),
           (capitalize_words false (replace_first_underscore key)).
    split; [reflexivity|].
    split; [apply replace_first_underscore_length|].
    split; [apply get_replace_first_hit|].
    split; [apply get_replace_first_miss|].
    split.
    + now rewrite capitalize_words_length, replace_first_underscore_length.
    + intros i c. apply get_capitalize_words.
Qed.

Lemma formatLabel_turns_only_the_first_underscore_witness :
  formatLabel "estado_civil" = Some "Estado Civil"
  /\ exists spaced label,
       formatLabel "a_b_c" = Some label
       /\ String.get 1 spaced = Some " "%char
       /\ String.get 3 spaced = Some "_"%char.
Proof.
  split; [reflexivity|].
  destruct (proj1 (proj2 (formatLabel_turns_only_the_first_underscore "a_b_c"))
              eq_refl eq_refl)
    as [spaced [label [Hl [_ [Hhit [Hmiss _]]]]]].
  exists spaced, label. split; [exact Hl|]. split.
  - apply Hhit; [reflexivity|].
    intros j Hj. assert (j = 0%nat) as -> by lia. discriminate.
  - apply (Hmiss 3%nat "_"%char); [reflexivity|].
    right. exists 1%nat. split; [lia | reflexivity].
Defined.

(* ================================================================= *)
(** ** Status check *)

Lemma is_running_spec status :
  is_running status = true <-> status = Prim (PStr "running").
Proof.
  split.
  - destruct status as [[| |b|n|s]| |]; cbn; try discriminate.
    intros E. apply String.eqb_eq in E. now subst s.
  - intros ->. reflexivity.
Qed.

(** X20.  When the page has both status elements, [checkAppStatus] sends
    one request and leaves the bar online exactly when the answer is a
    success whose JSON body has the status running; in every other case,
    a request that rejects, a body that does not parse or is null, a
    status that is not a success, the bar is left offline.  When one of
    the two elements is missing the method sends nothing and changes
    nothing. *)
Theorem status_is_online_exactly_when bar answer :
  (statusIndicator bar <> None /\ statusText bar <> None ->
   (fst (checkAppStatus bar answer)
    = set_status "status-indicator online" "Sistema Online"
    <-> exists data,
          answer = Responded true (inr data)
          /\ get data "status" = inr (Prim (PStr "running")))
   /\ (fst (checkAppStatus bar answer)
       = set_status "status-indicator online" "Sistema Online"
       \/ fst (checkAppStatus bar answer)
          = set_status "status-indicator offline" "Sistema Offline")
   /\ exists e, snd (checkAppStatus bar answer)
                = [StatusFetch "/api/app_status"; e])
  /\ (statusIndicator bar = None \/ statusText bar = None ->
      checkAppStatus bar answer = (bar, [])).
Proof.
  split.
  - intros [Hi Ht]. unfold checkAppStatus.
    destruct (statusIndicator bar) as [c|]; [|contradiction].
    destruct (statusText bar) as [t|]; [|contradiction].
    destruct answer as [msg | ok [msg | data]].
    + split; [|split; [right; reflexivity | eexists; reflexivity]].
      split; [discriminate | intros [d [E _]]; discriminate E].
    + split; [|split; [right; reflexivity | eexists; reflexivity]].
      split; [discriminate | intros [d [E _]]; discriminate E].
    + destruct ok.
      * destruct (get data "status") as [m | status] eqn:G.
        { split; [|split; [right; reflexivity | eexists; reflexivity]].
          split; [discriminate|].
          intros [d [E G']]. injection E as <-. congruence. }
        destruct (is_running status) eqn:R.
        { apply is_running_spec in R. subst status.
          split; [|split; [left; reflexivity | eexists; reflexivity]].
          split; [intros _; eauto | reflexivity]. }
        split; [|split; [right; reflexivity | eexists; reflexivity]].
        split; [discriminate|].
        intros [d [E G']]. injection E as <-.
        rewrite G in G'. injection G' as ->. discriminate R.
      * split; [|split; [right; reflexivity | eexists; reflexivity]].
        split; [discriminate | intros [d [E _]]; discriminate E].
  - intros [H | H]; unfold checkAppStatus; rewrite H;
      [|destruct (statusIndicator bar)]; reflexivity.
Qed.

Lemma status_is_online_exactly_when_witness :
  let bar := {| statusIndicator := Some "status-indicator";
                statusText := Some "" |} in
  fst (checkAppStatus bar
         (Responded true
            (inr (Obj [("status", Prim (PStr "running"));
                       ("services", Obj [("gemini", Prim (PBool true))])]))))
  = set_status "status-indicator online" "Sistema Online"
  /\ checkAppStatus {| statusIndicator := None; statusText := Some "" |}
       (Rejected "offline")
     = ({| statusIndicator := None; statusText := Some "" |}, []).
Proof.
  intros bar. split.
  - apply (proj1 (status_is_online_exactly_when bar _)).
    + split; discriminate.
    + eexists. split; reflexivity.
  - apply (proj2 (status_is_online_exactly_when
                    {| statusIndicator := None; statusText := Some "" |} _)).
    left. reflexivity.
Defined.

(* ================================================================= *)
(** ** The list on the page *)

Lemma handleFormSubmit_container form answer w :
  uploadedFilesContainer (page (world_of (handleFormSubmit form answer w)))
  = uploadedFilesContainer (page w).
Proof.
  destruct (truthy_prim (property (collectFormData (this w) form) "segmento"))
    eqn:Hv.
  - assert (world_of (handleFormSubmit form answer w)
            = world_of (performAnalysis (collectFormData (this w) form) answer w))
      as ->.
    { unfold handleFormSubmit, bind, emit, get_this. cbv beta iota.
      rewrite (validateFormData_present _ _ Hv).
      change (negb true) with false. cbv beta iota.
      now destruct (performAnalysis _ answer w) as [[r w2] es2]. }
    destruct (analysis_error answer) as [message|] eqn:E.
    + now rewrite (performAnalysis_failure _ _ _ _ E).
    + destruct answer as [msg | [|] [msg | result]]; try discriminate E.
      * destruct w as [a [f c [d|] rc]]; [destruct rc|]; reflexivity.
      * cbn in E. destruct (get result "message"); discriminate E.
  - now rewrite (handleFormSubmit_invalid _ _ _ Hv).
Qed.

(** X21.  The list on the page follows the upload list: once the
    container shows the rendering of the list, it still does after any
    call of [handleFormSubmit], [uploadFile], [removeFile], [downloadPDF]
    or [startNewAnalysis], whatever the environment answers; and the
    three methods that write the list leave it shown whatever the page
    showed before. *)
Theorem the_page_keeps_showing_the_list w :
  (list_shown w ->
   (forall form answer, list_shown (world_of (handleFormSubmit form answer w)))
   /\ (forall isoNow answer, list_shown (world_of (downloadPDF isoNow answer w)))
   /\ (forall file now answer,
          list_shown (world_of (uploadFile file now answer w))))
  /\ (forall file now ok result,
         truthy (success result) = true ->
         list_shown (world_of (uploadFile file now (Responded ok (inr result)) w)))
  /\ (forall fileId, list_shown (world_of (removeFile fileId w)))
  /\ (forall now random36,
         list_shown (world_of (startNewAnalysis now random36 w))).
Proof.
  assert (forall file now ok result,
             truthy (success result) = true ->
             list_shown (world_of (uploadFile file now
                                     (Responded ok (inr result)) w))) as Hup.
  { intros file now ok result Hs.
    rewrite (uploadFile_success_run _ _ _ _ _ Hs).
    unfold world_of at 1. cbn [fst snd]. apply list_shown_after_update. }
  split; [|split; [exact Hup|split]].
  - intros Hshown. split; [|split].
    + intros form answer. unfold list_shown in *.
      rewrite handleFormSubmit_container.
      now rewrite (proj1 (proj2 (handleFormSubmit_this form answer w))).
    + intros isoNow answer. now rewrite downloadPDF_world.
    + intros file now answer.
      destruct (upload_failed_dec answer) as [Hf | [ok [result [-> Hs]]]].
      * destruct (uploadFile_failure_run file now answer w Hf) as [m E].
        now rewrite E.
      * now apply Hup.
  - intros fileId. rewrite removeFile_run.
    unfold world_of at 1. cbn [fst snd]. apply list_shown_after_update.
  - intros now random36. rewrite startNewAnalysis_world.
    unfold list_shown, reset_page; cbn.
    now destruct (uploadedFilesContainer (page w)).
Qed.

Lemma the_page_keeps_showing_the_list_witness :
  let w := {| this := constructor 1700000000000 "0.4fzyo82mvyr";
              page := {| analysisForm := true;
                         uploadedFilesContainer := Some "";
                         resultsSection := Some "none";
                         resultsContent := true |} |} in
  list_shown (world_of (handleFormSubmit [("segmento", "fitness")]
                          (Responded true (inr (Obj []))) w)).
Proof.
  intros w.
  apply (proj1 (proj1 (the_page_keeps_showing_the_list w) eq_refl)).
Defined.
